(** * demeter: the metric service, its REST handlers and its GraphQL routes

  A shallow embedding of
    - server/src/services/MetricService/DbtLocalMetricService.ts
    - server/src/index.ts
    - server/src/routes/graphql.ts
  JavaScript strings are modelled as [string] (code units below 256),
  JSON values as an inductive type, objects used as maps as [gmap],
  and the effects of the handlers (subprocess launches, console output,
  the HTTP response, the router's layer stack) in a small state and
  exception monad. *)

From stdpp Require Import base gmap strings list.
From Stdlib Require Import ZArith Ascii String Lia.

Set Warnings "-register-all,-clear-no-such-hyp".

Local Open Scope string_scope.
Local Open Scope list_scope.
Local Open Scope Z_scope.

(** ** JavaScript string primitives used by the sources *)
Module Js.

Definition dq : ascii := "034"%char.
Definition lf : ascii := "010"%char.
Definition cr : ascii := "013"%char.
Definition DQ : string := String dq "".
Definition LF : string := String lf "".

(** [q s] is [s] between double quotes. *)
Definition q (s : string) : string := DQ +:+ s +:+ DQ.

(** Truthiness of a string: only the empty string is falsy. *)
Definition truthy (s : string) : bool :=
  match s with "" => false | _ => true end.

(** LineTerminator code units below 256: LF and CR. *)
Definition is_line_terminator (c : ascii) : bool :=
  Ascii.eqb c lf || Ascii.eqb c cr.

(** WhiteSpace and LineTerminator code units below 256, as
    [String.prototype.trimEnd] strips them: TAB, LF, VT, FF, CR, SP, NBSP. *)
Definition is_white_space (c : ascii) : bool :=
  let n := nat_of_ascii c in
  (Nat.leb 9 n && Nat.leb n 13) || Nat.eqb n 32 || Nat.eqb n 160.

Fixpoint all_white_space (s : string) : bool :=
  match s with
  | "" => true
  | String c r => is_white_space c && all_white_space r
  end.

(** [s.trimEnd()] *)
Fixpoint trimEnd (s : string) : string :=
  match s with
  | "" => ""
  | String c r => if all_white_space s then "" else String c (trimEnd r)
  end.

(** [s.replace(/c/g, by)] for a one-character pattern [c]. *)
Fixpoint replace_all (c : ascii) (by_ : string) (s : string) : string :=
  match s with
  | "" => ""
  | String a r =>
      if Ascii.eqb a c then by_ +:+ replace_all c by_ r
      else String a (replace_all c by_ r)
  end.

Fixpoint indexOf_from (pat s : string) (i : Z) : Z :=
  if String.prefix pat s then i
  else match s with
       | "" => -1
       | String _ r => indexOf_from pat r (i + 1)
       end.

(** [s.indexOf(pat)]: the first position of [pat] in [s], or [-1]. *)
Definition indexOf (s pat : string) : Z := indexOf_from pat s 0.

Fixpoint drop (n : nat) (s : string) : string :=
  match n, s with
  | O, _ => s
  | S _, "" => ""
  | S m, String _ r => drop m r
  end.

(** [s.slice(start)]: a negative [start] counts from the end. *)
Definition slice (s : string) (start : Z) : string :=
  let len := Z.of_nat (String.length s) in
  let from := if start <? 0 then Z.max (len + start) 0 else Z.min start len in
  drop (Z.to_nat from) s.

(** [xs.toString()] of an array of strings: the elements joined by commas. *)
Definition Array_toString (xs : list string) : string := String.concat "," xs.

(** *** The regular expression [/\{.*\}/g]

    [.] matches any code unit but a line terminator, and [*] is greedy:
    from an opening brace the match runs to the last closing brace of
    the same line. *)

(** The longest prefix of [s] free of line terminators. *)
Fixpoint take_line (s : string) : string :=
  match s with
  | "" => ""
  | String c r => if is_line_terminator c then "" else String c (take_line r)
  end.

(** The longest prefix of [run] that ends with a closing brace. *)
Fixpoint upto_last_close (run : string) : option string :=
  match run with
  | "" => None
  | String c r =>
      match upto_last_close r with
      | Some p => Some (String c p)
      | None => if Ascii.eqb c "}" then Some (String c "") else None
      end
  end.

(** A match of [\{.*\}] anchored at the start of [s]. *)
Definition match_here (s : string) : option string :=
  match s with
  | String c r =>
      if Ascii.eqb c "{"
      then String c <$> upto_last_close (take_line r)
      else None
  | "" => None
  end.

(** All matches from left to right; after a match the search resumes at
    its end ([skip] counts the code units of the current match still to
    be passed over). *)
Fixpoint scan (skip : nat) (s : string) : list string :=
  match s with
  | "" => []
  | String _ r =>
      match skip with
      | S k => scan k r
      | O =>
          match match_here s with
          | Some m => m :: scan (Nat.pred (String.length m)) r
          | None => scan O r
          end
      end
  end.

(** [s.match(/\{.*\}/g)]: [None] is JavaScript's [null]. *)
Definition match_object_spans (s : string) : option (list string) :=
  match scan O s with
  | [] => None
  | ms => Some ms
  end.

End Js.

(** ** JSON values, [JSON.parse] and [JSON.stringify] *)
Module Json.

(** A number keeps the lexeme it was read from (no floating point
    normalisation); object members keep their order of appearance. *)
Inductive json : Type :=
| JNull
| JBool (b : bool)
| JNumber (lexeme : string)
| JString (s : string)
| JArray (xs : list json)
| JObject (members : list (string * json)).

(** Outcome of a parser on a prefix of the input. *)
Inductive pres (A : Type) : Type :=
| POk (a : A) (rest : string)
| PSyntax
| PFuel.
Arguments POk {A} a rest.
Arguments PSyntax {A}.
Arguments PFuel {A}.

Definition is_ws (c : ascii) : bool :=
  let n := nat_of_ascii c in
  Nat.eqb n 32 || Nat.eqb n 9 || Nat.eqb n 10 || Nat.eqb n 13.

Fixpoint skip_ws (s : string) : string :=
  match s with
  | String c r => if is_ws c then skip_ws r else s
  | "" => ""
  end.

(** What follows [c] when [s] starts with it. *)
Definition starts_with (c : ascii) (s : string) : option string :=
  match s with
  | String c' r => if Ascii.eqb c' c then Some r else None
  | "" => None
  end.

Definition is_digit (c : ascii) : bool :=
  let n := nat_of_ascii c in Nat.leb 48 n && Nat.leb n 57.

(** The digits at the start of [s], and what follows them. *)
Fixpoint span_digits (s : string) : string * string :=
  match s with
  | String c r =>
      if is_digit c
      then let '(ds, rest) := span_digits r in (String c ds, rest)
      else ("", s)
  | "" => ("", "")
  end.

(** One or more digits. *)
Definition digits1 (s : string) : option (string * string) :=
  match span_digits s with
  | ("", _) => None
  | p => Some p
  end.

Definition opt_frac (s : string) : option (string * string) :=
  match starts_with "." s with
  | Some r => '(ds, rest) ← digits1 r; Some (String "." ds, rest)
  | None => Some ("", s)
  end.

Definition opt_exp (s : string) : option (string * string) :=
  match s with
  | String c r =>
      if Ascii.eqb c "e" || Ascii.eqb c "E" then
        match r with
        | String sg r' =>
            if Ascii.eqb sg "+" || Ascii.eqb sg "-"
            then '(ds, rest) ← digits1 r'; Some (String c (String sg ds), rest)
            else '(ds, rest) ← digits1 r; Some (String c ds, rest)
        | "" => None
        end
      else Some ("", s)
  | "" => Some ("", s)
  end.

(** The integer part: a lone [0], or a non-zero digit and more digits. *)
Definition int_part (s : string) : option (string * string) :=
  match s with
  | String c r =>
      if Ascii.eqb c "0" then Some ("0", r)
      else if is_digit c
           then let '(ds, rest) := span_digits r in Some (String c ds, rest)
           else None
  | "" => None
  end.

Definition unsigned_number (s : string) : option (string * string) :=
  '(i, r1) ← int_part s;
  '(f, r2) ← opt_frac r1;
  '(e, r3) ← opt_exp r2;
  Some (i +:+ f +:+ e, r3).

Definition parse_number (s : string) : option (string * string) :=
  match starts_with "-" s with
  | Some r => '(n, rest) ← unsigned_number r; Some (String "-" n, rest)
  | None => unsigned_number s
  end.

Definition hex_val (c : ascii) : option nat :=
  let n := nat_of_ascii c in
  if Nat.leb 48 n && Nat.leb n 57 then Some (n - 48)%nat
  else if Nat.leb 97 n && Nat.leb n 102 then Some (n - 87)%nat
  else if Nat.leb 65 n && Nat.leb n 70 then Some (n - 55)%nat
  else None.

(** The code unit of a backslash-u escape with four hex digits; code units from 256 on are outside the
    model and are reported as [None]. *)
Definition unicode_escape (a b c d : ascii) : option ascii :=
  x3 ← hex_val a; x2 ← hex_val b; x1 ← hex_val c; x0 ← hex_val d;
  let n := (((x3 * 16 + x2) * 16 + x1) * 16 + x0)%nat in
  if Nat.ltb n 256 then Some (ascii_of_nat n) else None.

Definition simple_escape (c : ascii) : option ascii :=
  if Ascii.eqb c Js.dq then Some Js.dq
  else if Ascii.eqb c "092" then Some "092"%char
  else if Ascii.eqb c "/" then Some "/"%char
  else if Ascii.eqb c "b" then Some "008"%char
  else if Ascii.eqb c "f" then Some "012"%char
  else if Ascii.eqb c "n" then Some "010"%char
  else if Ascii.eqb c "r" then Some "013"%char
  else if Ascii.eqb c "t" then Some "009"%char
  else None.

(** The characters of a string literal after its opening quote, up to
    and including the closing quote. *)
Fixpoint string_chars (s : string) : option (string * string) :=
  match s with
  | "" => None
  | String c r =>
      if Ascii.eqb c Js.dq then Some ("", r)
      else if Ascii.eqb c "092" then
        match r with
        | String "u" (String a (String b (String c' (String d r')))) =>
            u ← unicode_escape a b c' d;
            '(cs, rest) ← string_chars r';
            Some (String u cs, rest)
        | String e r' =>
            u ← simple_escape e;
            '(cs, rest) ← string_chars r';
            Some (String u cs, rest)
        | "" => None
        end
      else if Nat.ltb (nat_of_ascii c) 32 then None
      else '(cs, rest) ← string_chars r; Some (String c cs, rest)
  end.

Definition literal (word : string) (v : json) (s : string) : pres json :=
  if String.prefix word s
  then POk v (Js.drop (String.length word) s)
  else PSyntax.

Definition number (s : string) : pres json :=
  match parse_number s with
  | Some (lex, rest) => POk (JNumber lex) rest
  | None => PSyntax
  end.

Fixpoint parse_value (fuel : nat) (s : string) {struct fuel} : pres json :=
  match fuel with
  | O => PFuel
  | S n =>
      match skip_ws s with
      | "" => PSyntax
      | String c r =>
          if Ascii.eqb c "{" then
            match starts_with "}" (skip_ws r) with
            | Some r' => POk (JObject []) r'
            | None =>
                match parse_members n (skip_ws r) with
                | POk ms rest => POk (JObject ms) rest
                | PSyntax => PSyntax
                | PFuel => PFuel
                end
            end
          else if Ascii.eqb c "[" then
            match starts_with "]" (skip_ws r) with
            | Some r' => POk (JArray []) r'
            | None =>
                match parse_elements n (skip_ws r) with
                | POk vs rest => POk (JArray vs) rest
                | PSyntax => PSyntax
                | PFuel => PFuel
                end
            end
          else if Ascii.eqb c Js.dq then
            match string_chars r with
            | Some (str, rest) => POk (JString str) rest
            | None => PSyntax
            end
          else if Ascii.eqb c "t" then literal "true" (JBool true) (String c r)
          else if Ascii.eqb c "f" then literal "false" (JBool false) (String c r)
          else if Ascii.eqb c "n" then literal "null" JNull (String c r)
          else number (String c r)
      end
  end
with parse_elements (fuel : nat) (s : string) {struct fuel} : pres (list json) :=
  match fuel with
  | O => PFuel
  | S n =>
      match parse_value n s with
      | POk v rest =>
          match starts_with "," (skip_ws rest) with
          | Some r =>
              match parse_elements n r with
              | POk vs rest' => POk (v :: vs) rest'
              | PSyntax => PSyntax
              | PFuel => PFuel
              end
          | None =>
              match starts_with "]" (skip_ws rest) with
              | Some r => POk [v] r
              | None => PSyntax
              end
          end
      | PSyntax => PSyntax
      | PFuel => PFuel
      end
  end
with parse_members (fuel : nat) (s : string) {struct fuel}
  : pres (list (string * json)) :=
  match fuel with
  | O => PFuel
  | S n =>
      match starts_with Js.dq (skip_ws s) with
      | None => PSyntax
      | Some r =>
          match string_chars r with
          | None => PSyntax
          | Some (k, rest) =>
              match starts_with ":" (skip_ws rest) with
              | None => PSyntax
              | Some r1 =>
                  match parse_value n r1 with
                  | POk v rest1 =>
                      match starts_with "," (skip_ws rest1) with
                      | Some r2 =>
                          match parse_members n r2 with
                          | POk ms rest2 => POk ((k, v) :: ms) rest2
                          | PSyntax => PSyntax
                          | PFuel => PFuel
                          end
                      | None =>
                          match starts_with "}" (skip_ws rest1) with
                          | Some r2 => POk [(k, v)] r2
                          | None => PSyntax
                          end
                      end
                  | PSyntax => PSyntax
                  | PFuel => PFuel
                  end
              end
          end
      end
  end.

(** Fuel that always suffices: every two nested calls consume a
    character (see [parse_value_fuel] below). *)
Definition fuel_for (s : string) : nat := (2 * String.length s + 2)%nat.

(** [JSON.parse(s)]; [None] is the [SyntaxError] it throws. *)
Definition parse (s : string) : option json :=
  match parse_value (fuel_for s) s with
  | POk v rest => if String.eqb (skip_ws rest) "" then Some v else None
  | _ => None
  end.

(** *** [JSON.stringify] *)

Definition hex_digit (n : nat) : ascii :=
  if Nat.ltb n 10 then ascii_of_nat (48 + n) else ascii_of_nat (87 + n).

Definition escape_char (c : ascii) : string :=
  let n := nat_of_ascii c in
  if Ascii.eqb c Js.dq then String "092" Js.DQ
  else if Ascii.eqb c "092" then String "092" (String "092" "")
  else if Nat.eqb n 8 then String "092" "b"
  else if Nat.eqb n 12 then String "092" "f"
  else if Nat.eqb n 10 then String "092" "n"
  else if Nat.eqb n 13 then String "092" "r"
  else if Nat.eqb n 9 then String "092" "t"
  else if Nat.ltb n 32
       then String "092" ("u00" +:+
              String (hex_digit (n / 16)) (String (hex_digit (n mod 16)) ""))
  else String c "".

Fixpoint escape (s : string) : string :=
  match s with
  | "" => ""
  | String c r => escape_char c +:+ escape r
  end.

Definition quote (s : string) : string := Js.q (escape s).

Fixpoint stringify (v : json) : string :=
  match v with
  | JNull => "null"
  | JBool true => "true"
  | JBool false => "false"
  | JNumber lex => lex
  | JString s => quote s
  | JArray xs => "[" +:+ String.concat "," (List.map stringify xs) +:+ "]"
  | JObject ms =>
      "{" +:+
      String.concat ","
        (List.map (fun kv => quote (fst kv) +:+ ":" +:+ stringify (snd kv)) ms)
      +:+ "}"
  end.

(** [JSON.stringify] of an object literal some of whose properties may
    be [undefined] ([None]): those are left out. *)
Definition stringify_object (props : list (string * option json)) : string :=
  stringify (JObject (omap (fun kv => pair (fst kv) <$> snd kv) props)).

(** A number lexeme that denotes zero: only zeros before the exponent. *)
Fixpoint zero_lexeme (lex : string) : bool :=
  match lex with
  | "" => true
  | String c r =>
      if Ascii.eqb c "e" || Ascii.eqb c "E" then true
      else if Ascii.eqb c "0" || Ascii.eqb c "." || Ascii.eqb c "-" then zero_lexeme r
      else false
  end.

(** Truthiness of a JSON value ([!v] is its negation). *)
Definition truthy (v : json) : bool :=
  match v with
  | JNull => false
  | JBool b => b
  | JNumber lex => negb (zero_lexeme lex)
  | JString s => Js.truthy s
  | JArray _ | JObject _ => true
  end.

(** Property lookup [ms[k]] on an object: the last member named [k]
    wins, as [JSON.parse] keeps the last duplicate. *)
Fixpoint member (k : string) (ms : list (string * json)) : option json :=
  match ms with
  | [] => None
  | (k', v) :: r =>
      match member k r with
      | Some v' => Some v'
      | None => if String.eqb k' k then Some v else None
      end
  end.

End Json.

Import Json.

(** ** The schema objects built with the graphql library *)
Module GraphQL.

Inductive GraphQLScalar : Type := GraphQLString | GraphQLFloat.

(** [new GraphQLObjectType({name, fields})], each field [{type: t}]. *)
Record GraphQLObjectType : Type := {
  ot_name : string;
  ot_fields : gmap string GraphQLScalar;
}.

(** The type of an argument: [t] or [new GraphQLNonNull(t)]. *)
Inductive ArgType : Type :=
| Nullable (t : GraphQLScalar)
| GraphQLNonNull (t : GraphQLScalar).

(** A field of the Query type: [{type: new GraphQLList(row), args}]. *)
Record QueryField : Type := {
  qf_row : GraphQLObjectType;
  qf_args : gmap string ArgType;
}.

(** [new GraphQLSchema({query})] with [query] the object type named
    Query; the library's own validation of names is not modelled. *)
Record GraphQLSchema : Type := {
  query_fields : gmap string QueryField;
}.

(** The function a root value binds to a metric name. *)
Inductive Resolver : Type := metricResolver_fn.

#[export] Instance scalar_eq_dec : EqDecision GraphQLScalar.
Proof. solve_decision. Defined.

End GraphQL.
Import GraphQL.

(** ** Effects: subprocesses, the console, the response, the router *)
Module Node.

(** The options of [execFileSync]: the working directory and what is
    spread over [process.env] (the encoding is always utf-8). *)
Record ExecOptions : Type := {
  cwd : string;
  env_overrides : option (list (string * string));
}.

(** What is handed to the process launcher. *)
Inductive Launch : Type :=
| ExecFileSync (file : string) (args : list string) (opts : ExecOptions)
| ExecSync (command : string).

(** How the child process ended. *)
Inductive ExecResult : Type :=
| Exit0 (stdout : string)
| ExitFail (status : Z) (stdout : string).

(** The external engine: how the process of each launch ends. *)
Definition Engine : Type := Launch -> ExecResult.

(** What the code throws: the errors of [JSON.parse], of a property read
    on null or undefined, of a child process that exited with a non-zero
    status (it carries the status and the stdout), [new Error(message)],
    and the error of writing headers to a response already sent. *)
Inductive JsError : Type :=
| SyntaxError
| TypeError
| ChildProcessError (status : Z) (stdout : string)
| Error_ (message : option string)
| HeadersSentError.

(** [console.debug], [console.info], [console.warn], [console.error]. *)
Inductive Level : Type := debug | info | warn | error.

Inductive LogArg : Type :=
| LText (s : string)
| LError (e : JsError)
| LSchema (s : GraphQLSchema).

Definition LogLine : Type := (Level * list LogArg)%type.

Inductive Body : Type :=
| BText (s : string)
| BJson (v : json)
| BError (e : JsError).

(** What went out on the wire: the status and content type at the time
    of sending, and the body ([None] for a bare [end]). *)
Record Sent : Type := {
  sent_status : Z;
  sent_type : option string;
  sent_body : option Body;
}.

(** The express response: [sent] is [None] until [send] or [end]. *)
Record Response : Type := {
  statusCode : Z;
  contentType : option string;
  sent : option Sent;
}.

Definition fresh_response : Response :=
  {| statusCode := 200; contentType := None; sent := None |}.

(** A layer of the router's stack. *)
Inductive Layer : Type :=
| RefreshRoute
| GraphqlHTTP (schema : GraphQLSchema) (rootValue : gmap string Resolver)
| Reinit.

(** The state the handlers work on. *)
Record World : Type := {
  launches : list Launch;
  console : list LogLine;
  res : Response;
  router : list Layer;
  discoveries : nat;
}.

Definition Result (A : Type) : Type := (JsError + A)%type.

(** Computations of the handlers: they read the engine, change the
    world, and return or throw. *)
Definition M (A : Type) : Type := Engine -> World -> World * Result A.

Definition ret {A} (a : A) : M A := fun _ w => (w, inr a).
Definition throw {A} (e : JsError) : M A := fun _ w => (w, inl e).
Definition bind {A B} (m : M A) (k : A -> M B) : M B :=
  fun eng w =>
    match m eng w with
    | (w', inr a) => k a eng w'
    | (w', inl e) => (w', inl e)
    end.
(** [try { m } catch (error) { handler error }] *)
Definition try_catch {A} (m : M A) (handler : JsError -> M A) : M A :=
  fun eng w =>
    match m eng w with
    | (w', inl e) => handler e eng w'
    | r => r
    end.

#[export] Instance M_ret : MRet M := @ret.
#[export] Instance M_bind : MBind M := fun A B k m => bind m k.

Definition of_option {A} (e : JsError) (o : option A) : M A :=
  match o with Some a => ret a | None => throw e end.

Definition modify (f : World -> World) : M unit := fun _ w => (f w, inr tt).

Definition console_log (l : Level) (args : list LogArg) : M unit :=
  modify (fun w => {| launches := launches w; console := console w ++ [(l, args)];
                      res := res w; router := router w;
                      discoveries := discoveries w |}).

Definition record_launch (l : Launch) (w : World) : World :=
  {| launches := launches w ++ [l]; console := console w; res := res w;
     router := router w; discoveries := discoveries w |}.

(** Launch a child process and wait for it: its stdout, or the error
    thrown for a non-zero exit. *)
Definition launch (l : Launch) : M string :=
  fun eng w =>
    (record_launch l w,
     match eng l with
     | Exit0 out => inr out
     | ExitFail st out => inl (ChildProcessError st out)
     end).

Definition execFileSync (file : string) (args : list string) (opts : ExecOptions)
  : M string := launch (ExecFileSync file args opts).

Definition execSync (command : string) : M string := launch (ExecSync command).

(** [JSON.parse] as a computation that may throw. *)
Definition JSON_parse (s : string) : M json := of_option SyntaxError (Json.parse s).

Definition set_res (r : Response) (w : World) : World :=
  {| launches := launches w; console := console w; res := r;
     router := router w; discoveries := discoveries w |}.

(** [res.type(t)] *)
Definition res_type (t : string) : M unit :=
  modify (fun w => set_res {| statusCode := statusCode (res w);
                              contentType := Some t; sent := sent (res w) |} w).

(** [res.status(code)] *)
Definition res_status (code : Z) : M unit :=
  modify (fun w => set_res {| statusCode := code;
                              contentType := contentType (res w);
                              sent := sent (res w) |} w).

(** [res.send(body)]: once the response has gone out, setting its
    headers again throws. *)
Definition res_send (b : Body) : M unit :=
  fun _ w =>
    match sent (res w) with
    | Some _ => (w, inl HeadersSentError)
    | None => (set_res {| statusCode := statusCode (res w);
                          contentType := contentType (res w);
                          sent := Some {| sent_status := statusCode (res w);
                                          sent_type := contentType (res w);
                                          sent_body := Some b |} |} w, inr tt)
    end.


(** [router.use('/', layer)] *)
Definition router_use (l : Layer) : M unit :=
  modify (fun w => {| launches := launches w; console := console w; res := res w;
                      router := router w ++ [l];
                      discoveries := discoveries w |}).

(** The world once the modules are loaded: nothing launched or logged,
    and the router holding the POST /refresh route only. *)
Definition initial_world : World :=
  {| launches := []; console := []; res := fresh_response;
     router := [RefreshRoute]; discoveries := O |}.

(** [o ? [flag, o] : []] for an optional string. *)
Definition opt_flag (flag : string) (o : option string) : list string :=
  match o with
  | Some v => if Js.truthy v then [flag; v] else []
  | None => []
  end.

(** An optional string inside a template literal. *)
Definition interpolate (o : option string) : string := default "undefined" o.

End Node.
Import Node.

(** ** JavaScript objects with string keys, as the entries they hold

    The entries stand in insertion order (integer-like keys, which
    JavaScript lists first, are not reordered). *)
Module Obj.

(** [o[k] = v]: the value of an own key is replaced in place, a new key
    goes to the end. *)
Fixpoint set {V} (k : string) (v : V) (o : list (string * V)) : list (string * V) :=
  match o with
  | [] => [(k, v)]
  | (k', v') :: r =>
      if String.eqb k' k then (k', v) :: r else (k', v') :: set k v r
  end.

(** [o[k]], [None] for undefined. *)
Fixpoint get {V} (k : string) (o : list (string * V)) : option V :=
  match o with
  | [] => None
  | (k', v') :: r => if String.eqb k' k then Some v' else get k r
  end.

(** [{...base, ...src}] *)
Definition spread {V} (base src : list (string * V)) : list (string * V) :=
  foldl (fun o kv => set (fst kv) (snd kv) o) base src.

(** [Object.fromEntries(entries)] *)
Definition fromEntries {V} (entries : list (string * V)) : list (string * V) :=
  spread [] entries.

(** [Object.keys(o)] *)
Definition keys {V} (o : list (string * V)) : list string := fst <$> o.

End Obj.

(** ** services/MetricService/DbtLocalMetricService.ts *)
Module DbtLocalMetricService.

(** The instance fields the constructor leaves behind. *)
Record t : Type := {
  dbtProjectPath : string;
  dbtProfilePath : option string;
  profile : option string;
  credentials : option (list (string * string));
  target : option string;
}.

Record Selectors : Type := {
  type : option string;
  model : option string;
  package_name : option string;
}.

Definition no_selectors : Selectors :=
  {| type := None; model := None; package_name := None |}.

Record QueryParams : Type := {
  metric_name : string;
  grain : string;
  dimensions : option (list string);
  start_date : option string;
  end_date : option string;
  format : option string;
}.

Definition exec_options (this : t) : ExecOptions :=
  {| cwd := dbtProjectPath this; env_overrides := credentials this |}.

Definition connection_flags (this : t) : list string :=
  opt_flag "--target" (target this) ++
  opt_flag "--profile" (profile this) ++
  opt_flag "--profiles-dir" (dbtProfilePath this).

Definition OUTPUT_KEYS : string :=
  Js.q "name model label description type time_grains dimensions filters unique_id package_name".

(** The selector: the name with every double quote removed, after
    the prefix metric: (the empty string when no name is given). *)
Definition select_of (name : option string) : string :=
  match name with
  | Some n => if Js.truthy n then "metric:" +:+ Js.replace_all Js.dq "" n else ""
  | None => ""
  end.

Definition listMetrics_args (this : t) (name : option string) : list string :=
  let select := select_of name in
  ["ls"] ++ connection_flags this ++
  (if Js.truthy select then ["--select"; select] else []) ++
  ["--resource-type"; "metric"; "--output"; "json"; "--output-keys"; OUTPUT_KEYS].

(** ['[' + out.trimEnd().match(/\{.*\}/g)?.toString() + ']']: without
    a match the optional chain gives [undefined], which the
    concatenation spells out. *)
Definition wrap_spans (out : string) : string :=
  "[" +:+
  match Js.match_object_spans (Js.trimEnd out) with
  | Some spans => Js.Array_toString spans
  | None => "undefined"
  end +:+ "]".

(** [metric[key] === wanted] *)
Definition prop_is (key wanted : string) (metric : json) : Result bool :=
  match metric with
  | JNull => inl TypeError
  | JObject ms =>
      inr match member key ms with
          | Some (JString s) => String.eqb s wanted
          | _ => false
          end
  | _ => inr false
  end.

Fixpoint filter_by (key wanted : string) (metrics : list json) : Result (list json) :=
  match metrics with
  | [] => inr []
  | m :: r =>
      match prop_is key wanted m with
      | inl e => inl e
      | inr keep =>
          match filter_by key wanted r with
          | inl e => inl e
          | inr r' => inr (if keep then m :: r' else r')
          end
      end
  end.

(** [if (sel) metrics = metrics.filter(metric => metric[key] === sel)] *)
Definition filter_step (key : string) (sel : option string) (metrics : json) : M json :=
  match sel with
  | Some wanted =>
      if Js.truthy wanted then
        match metrics with
        | JArray xs =>
            match filter_by key wanted xs with
            | inl e => throw e
            | inr xs' => mret (JArray xs')
            end
        | _ => throw TypeError
        end
      else mret metrics
  | None => mret metrics
  end.

Definition selectors_json (s : Selectors) : option json :=
  Some (JObject (omap (fun kv => pair (fst kv) <$> snd kv)
                   [("type", JString <$> type s); ("model", JString <$> model s);
                    ("package_name", JString <$> package_name s)])).

Definition listMetrics (this : t) (name : option string) (selectors : Selectors)
  : M json :=
  console_log debug
    [LText ("called listMetrics with params " +:+
            stringify_object [("name", JString <$> name);
                              ("selectors", selectors_json selectors)])];;
  out ← execFileSync "dbt" (listMetrics_args this name) (exec_options this);
  metrics ← JSON_parse (wrap_spans out);
  metrics ← filter_step "type" (type selectors) metrics;
  metrics ← filter_step "model" (model selectors) metrics;
  metrics ← filter_step "package_name" (package_name selectors) metrics;
  mret metrics.

Definition strings_json (xs : list string) : json := JArray (JString <$> xs).

(** The properties of the [--args] object, in the order of the literal;
    [format] defaults to json. *)
Definition args_props (p : QueryParams) : list (string * option json) :=
  [("metric_name", Some (JString (metric_name p)));
   ("grain", Some (JString (grain p)));
   ("dimensions", strings_json <$> dimensions p);
   ("start_date", JString <$> start_date p);
   ("end_date", JString <$> end_date p);
   ("format", Some (JString (default "json" (format p))))].

Definition queryMetric_args (this : t) (p : QueryParams) : list string :=
  ["run-operation"] ++ connection_flags this ++
  ["dbt_metrics_api.run_metric"; "--args"; stringify_object (args_props p)].

Definition BREAK_STRING : string := "<<<MAPI-BEGIN>>>" +:+ Js.LF.

(** [(error as {stdout: string}).stdout] *)
Definition stdout_of (e : JsError) : option string :=
  match e with
  | ChildProcessError _ out => Some out
  | _ => None
  end.

(** The text handed to [JSON.parse]. *)
Definition payload_of (raw_output : string) : string :=
  Js.slice raw_output
    (Js.indexOf raw_output BREAK_STRING + Z.of_nat (String.length BREAK_STRING)).

Definition params_json (p : QueryParams) : string :=
  stringify_object
    [("metric_name", Some (JString (metric_name p)));
     ("grain", Some (JString (grain p)));
     ("dimensions", strings_json <$> dimensions p);
     ("start_date", JString <$> start_date p);
     ("end_date", JString <$> end_date p);
     ("format", JString <$> format p)].

Definition queryMetric (this : t) (params : QueryParams) : M json :=
  console_log debug [LText ("called queryMetric with params " +:+ params_json params)];;
  try_catch
    (raw_output ← execFileSync "dbt" (queryMetric_args this params) (exec_options this);
     JSON_parse (payload_of raw_output))
    (fun err =>
       console_log error [LText "An error occurred while querying a metric"; LError err];;
       throw (Error_ (stdout_of err))).

(** *** The constructor *)

Inductive Warehouse : Type := BIGQUERY | POSTGRES | REDSHIFT | SNOWFLAKE.

Definition warehouse_name (w : Warehouse) : string :=
  match w with
  | BIGQUERY => "bigquery"
  | POSTGRES => "postgres"
  | REDSHIFT => "redshift"
  | SNOWFLAKE => "snowflake"
  end.

(** [DbtProfile]: a warehouse type and its credentials, an object given
    by its entries. *)
Record DbtProfile : Type := {
  warehouse : Warehouse;
  secrets : list (string * string);
}.

(** The [props] of the constructor. *)
Record Props : Type := {
  props_dbtProjectPath : option string;
  props_target : option string;
  props_profile : option string;
  props_profileVariables : option DbtProfile;
}.

(** The documents handed to [yaml.dump]: strings and mappings. *)
Inductive Yaml : Type :=
| YString (s : string)
| YMap (entries : list (string * Yaml)).

(** What the constructor leaves: the instance, the document written to
    profiles.yml with its path (if any), and the lines of
    [console.debug]. *)
Record Constructed : Type := {
  instance : t;
  profile_file : option (string * Yaml);
  debug_lines : list string;
}.

Section Constructor.

(** [String.prototype.toUpperCase], and the directory [tempy.directory]
    made. *)
Variable toUpperCase : string -> string.
Variable tmpdir : string.

(** [envVar]: the name of the environment variable of a credential. *)
Definition envVar (key : string) : string :=
  "MAPI_DBT_PROFILE_" +:+ toUpperCase key.

(** The text written in place of the credential [key]. *)
Definition placeholder (key : string) : string :=
  "{{ env_var('" +:+ envVar key +:+ "') }}".

Definition credentialsToWrite (credentials : list (string * string))
  : list (string * Yaml) :=
  Obj.fromEntries ((fun key => (key, YString (placeholder key))) <$> Obj.keys credentials).

(** [type === Warehouse.BIGQUERY && credentials.method === 'service-account-json'] *)
Definition keyfile_json (p : DbtProfile) : bool :=
  match warehouse p with
  | BIGQUERY =>
      match Obj.get "method" (secrets p) with
      | Some m => String.eqb m "service-account-json"
      | None => false
      end
  | _ => false
  end.

(** [profileToWrite], with the profile named mapi_profile and the
    target prod. *)
Definition profileToWrite (p : DbtProfile) : Yaml :=
  let profileWithoutSecrets := [("type", YString (warehouse_name (warehouse p)))] in
  YMap [("mapi_profile",
         YMap [("target", YString "prod");
               ("outputs",
                YMap [("prod",
                       YMap (Obj.spread profileWithoutSecrets
                               (if keyfile_json p
                                then [("keyfileJson", YMap (credentialsToWrite (secrets p)))]
                                else credentialsToWrite (secrets p))))])])].

(** The environment handed to the engine: every credential under the
    name of its variable. *)
Definition credential_env (credentials : list (string * string))
  : list (string * string) :=
  Obj.fromEntries ((fun kv => (envVar (fst kv), snd kv)) <$> credentials).

Definition constructor (props : Props) : Result Constructed :=
  match props_dbtProjectPath props with
  | None => inl (Error_ (Some "no dbt project path given"))
  | Some path =>
      if negb (Js.truthy path) then inl (Error_ (Some "no dbt project path given"))
      else
        match props_profileVariables props with
        | None =>
            inr {| instance := {| dbtProjectPath := path;
                                  dbtProfilePath := None;
                                  profile := props_profile props;
                                  credentials := None;
                                  target := props_target props |};
                   profile_file := None;
                   debug_lines := [] |}
        | Some profileVariables =>
            inr {| instance := {| dbtProjectPath := path;
                                  dbtProfilePath := Some tmpdir;
                                  profile := Some "mapi_profile";
                                  credentials :=
                                    Some (credential_env (secrets profileVariables));
                                  target := Some "prod" |};
                   profile_file := Some (tmpdir +:+ "/profiles.yml",
                                         profileToWrite profileVariables);
                   debug_lines :=
                     ["profileVariables found; beginning to write profile.yml to directory "
                      +:+ tmpdir;
                      "successfully wrote profile.yml"] |}
        end
  end.

End Constructor.

(** *** [installMetricsPackage] *)

(** An entry of packages.yml. *)
Definition Package : Type := list (string * string).

Definition METRICS_API_GIT : string := "https://github.com/mjirv/dbt-metrics-api.git".

Definition METRICS_API_PACKAGE : Package :=
  [("git", METRICS_API_GIT); ("revision", "main")].

(** What [yaml.load] made of packages.yml: nothing (an empty file), or a
    mapping with or without a list under packages. *)
Inductive Loaded : Type :=
| NoDocument
| Document (packages : option (list Package)).

(** [el => el.git === METRICS_API_PACKAGE.git] *)
Definition is_metrics_package (el : Package) : bool :=
  match Obj.get "git" el with
  | Some g => String.eqb g METRICS_API_GIT
  | None => false
  end.

(** [packages?.find(...)] found an entry. *)
Definition has_metrics_package (packages : option (list Package)) : bool :=
  match packages with
  | Some l => existsb is_metrics_package l
  | None => false
  end.

Definition PACKAGE_YAML_PATH (this : t) : string :=
  dbtProjectPath this +:+ "/packages.yml".

(** The options of the [dbt deps] call: the working directory only. *)
Definition deps_options (this : t) : ExecOptions :=
  {| cwd := dbtProjectPath this; env_overrides := None |}.

(** [try { execFileSync('dbt', ['deps'], ...) } catch (error)
    { console.error(error); throw error }] *)
Definition run_deps (this : t) : M unit :=
  try_catch (execFileSync "dbt" ["deps"] (deps_options this);; mret tt)
            (fun err => console_log error [LError err];; throw err).

(** [installMetricsPackage], given what packages.yml loads to. Beside
    the world and the outcome it answers the list written back to
    packages.yml under the key packages, if the file was written. *)
Definition installMetricsPackage (this : t) (loaded : Loaded)
  : Engine -> World -> World * option (string * list Package) * Result unit :=
  fun eng w =>
    let '(w1, _) := console_log debug [LText "called installMetricsPackage"] eng w in
    match loaded with
    | NoDocument => (w1, None, inl TypeError)
    | Document packages =>
        if has_metrics_package packages then
          let '(w2, r) := run_deps this eng w1 in (w2, None, r)
        else
          let '(w2, _) :=
            console_log debug [LText "adding metrics package to packages.yml"] eng w1 in
          match packages with
          | None => (w2, None, inl TypeError)
          | Some l =>
              let written := l ++ [METRICS_API_PACKAGE] in
              let '(w3, r) := run_deps this eng w2 in
              (w3, Some (PACKAGE_YAML_PATH this, written), r)
          end
    end.

End DbtLocalMetricService.

(** ** index.ts: the REST handlers *)
Module Index.

(** [process.env] as the handlers read it. *)
Record ProcessEnv : Type := {
  DBT_PROJECT_PATH : option string;
  DBT_TARGET : option string;
}.

Record Selectors : Type := {
  type : option string;
  model : option string;
}.

Definition OUTPUT_KEYS : string :=
  Js.q "name model label description type time_grains dimensions filters unique_id".

(** The [--select] fragment: the name, its double quotes removed,
    between double quotes; empty when no name is given. *)
Definition select_of (name : option string) : string :=
  match name with
  | Some n =>
      if Js.truthy n
      then "--select " +:+ Js.q ("metric:" +:+ Js.replace_all Js.dq "" n)
      else ""
  | None => ""
  end.

(** The template literal handed to [execSync] by [listMetrics]; a
    backslash at the end of a line continues it. *)
Definition listMetrics_command (env : ProcessEnv) (name : option string) : string :=
  "cd " +:+ interpolate (DBT_PROJECT_PATH env) +:+ " &&" +:+
  "        dbt ls --resource-type metric --output json " +:+
  "        --output-keys " +:+ OUTPUT_KEYS +:+ " " +:+
  "        " +:+ select_of name.

Definition listMetrics (env : ProcessEnv) (name : option string) (selectors : Selectors)
  : M json :=
  out ← execSync (listMetrics_command env name);
  metrics ← JSON_parse ("[" +:+ Js.replace_all Js.lf "," (Js.trimEnd out) +:+ "]");
  metrics ← DbtLocalMetricService.filter_step "type" (type selectors) metrics;
  metrics ← DbtLocalMetricService.filter_step "model" (model selectors) metrics;
  mret metrics.


(** The body of a POST /run request, each property possibly absent. *)
Record RunBody : Type := {
  metric_name : option json;
  grain : option json;
  dimensions : option json;
  start_date : option json;
  end_date : option json;
}.

(** [!v] for a possibly absent property. *)
Definition falsy (v : option json) : bool :=
  match v with
  | Some j => negb (Json.truthy j)
  | None => true
  end.

Definition args_props (b : RunBody) (format : string) : list (string * option json) :=
  [("metric_name", metric_name b); ("grain", grain b); ("dimensions", dimensions b);
   ("start_date", start_date b); ("end_date", end_date b);
   ("format", Some (JString format))].

(** The template literal handed to [execSync] by the /run handler. *)
Definition run_command (env : ProcessEnv) (b : RunBody) (format : string) : string :=
  "cd " +:+ interpolate (DBT_PROJECT_PATH env) +:+ " &&" +:+
  "            dbt run-operation --target " +:+ interpolate (DBT_TARGET env) +:+
  " dbt_metrics_api.run_metric --args '" +:+
  stringify_object (args_props b format) +:+ "'" +:+ Js.LF +:+
  "        ".

Definition when (c : bool) (m : M unit) : M unit := if c then m else mret tt.

(** The [case 'csv'] of the switch over what [req.accepts] answered
    ([None] when it answered false). *)
Definition accepts_csv (accepts : option string) : bool :=
  match accepts with
  | Some a => String.eqb a "csv"
  | None => false
  end.

(** [app.post('/run', ...)]; [accepts] is what
    [req.accepts(['json', 'csv'])] answered. *)
Definition run_handler (env : ProcessEnv) (accepts : option string) (body : RunBody)
  : M unit :=
  format ← (if accepts_csv accepts
            then res_type "text/csv";; mret "csv"
            else res_type "application/json";; mret "json");
  when (falsy (metric_name body))
    (res_status 400;;
     res_send (BJson (JObject
       [("error", JString "metric_name is a required property; no metric_name given")])));;
  when (falsy (grain body))
    (res_status 400;;
     res_send (BJson (JObject
       [("error", JString "grain is a required property; no grain given")])));;
  try_catch
    (raw_output ← execSync (run_command env body format);
     let output := Js.slice raw_output (Js.indexOf raw_output Js.LF + 1) in
     res_send (BText output))
    (fun err =>
       console_log error [LError err];;
       res_status 404;;
       res_send (BError err)).

End Index.

(** ** routes/graphql.ts *)
Module Graphql.

(** A metric as this module reads it: its name and its dimensions (the
    other properties of a DBTResource are not used here). *)
Record DBTResource : Type := {
  name : string;
  dimensions : list string;
}.

(** [Object.fromEntries(entries)]: later entries overwrite earlier ones. *)
Definition Object_fromEntries {V} (entries : list (string * V)) : gmap string V :=
  foldl (fun o kv => <[fst kv := snd kv]> o) ∅ entries.

(** [{...base, ...src}]: the properties of [src] overwrite those of [base]. *)
Definition spread {V} (base src : gmap string V) : gmap string V := src ∪ base.

Definition metricToGraphQLType (metric : DBTResource) : GraphQLObjectType :=
  {| ot_name := name metric;
     ot_fields :=
       spread (<[name metric := GraphQLFloat]> (<["period" := GraphQLString]> ∅))
              (Object_fromEntries
                 ((fun dimension => (dimension, GraphQLString)) <$> dimensions metric)) |}.

Definition metric_args : gmap string ArgType :=
  <["end_date" := Nullable GraphQLString]>
    (<["start_date" := Nullable GraphQLString]>
       (<["grain" := GraphQLNonNull GraphQLString]> ∅)).

Definition query_type (availableMetrics : list DBTResource) : gmap string QueryField :=
  Object_fromEntries
    ((fun metric => (name metric,
                     {| qf_row := metricToGraphQLType metric; qf_args := metric_args |}))
       <$> availableMetrics).

(** [availableMetrics.reduce((prev, current) =>
      ({...prev, [current.name]: metricResolver}), {})] *)
Definition root_of (availableMetrics : list DBTResource) : gmap string Resolver :=
  foldl (fun prev current => <[name current := metricResolver_fn]> prev)
        ∅ availableMetrics.


(** A field node of the query document: its name and selection set. *)
Inductive FieldNode : Type :=
| Field (name_value : string) (selectionSet : option (list FieldNode)).

Definition name_value (n : FieldNode) : string :=
  match n with Field v _ => v end.
Definition selectionSet (n : FieldNode) : option (list FieldNode) :=
  match n with Field _ s => s end.



Section WithMetricService.

(** The module services/metricService.js, which this file imports:
    [queryMetric] returns the engine's payload as text, and the
    [n]-th call of [listMetrics] ends as [discovery n] says. *)
Variable queryMetric : DbtLocalMetricService.QueryParams -> M string.
Variable discovery : nat -> Result (list DBTResource).

Definition listMetrics : M (list DBTResource) :=
  fun _ w =>
    ({| launches := launches w; console := console w; res := res w;
        router := router w; discoveries := S (discoveries w) |},
     discovery (discoveries w)).


Definition graphqlInit : M unit :=
  availableMetrics ← try_catch listMetrics
                       (fun err => console_log warn [LError err];; mret []);
  let schema := {| query_fields := query_type availableMetrics |} in
  console_log info [LSchema schema];;
  let root := root_of availableMetrics in
  router_use (if bool_decide (0 < size root)%nat
              then GraphqlHTTP schema root
              else Reinit).


(** What a request for the typed query surface is answered with. *)
Inductive Served : Type :=
| ServedBy (schema : GraphQLSchema) (rootValue : gmap string Resolver)
| Unhandled.

(** The router passing a query request down its stack from layer
    [idx]: the refresh route does not match, a [Reinit] layer runs
    [graphqlInit] and calls [next], a [GraphqlHTTP] layer answers.
    [None] when [fuel] layers were not enough. *)
Fixpoint dispatch (fuel : nat) (idx : nat) : M (option Served) :=
  match fuel with
  | O => mret None
  | S n =>
      fun eng w =>
        match router w !! idx with
        | None => (w, inr (Some Unhandled))
        | Some RefreshRoute => dispatch n (S idx) eng w
        | Some Reinit => (graphqlInit;; dispatch n (S idx)) eng w
        | Some (GraphqlHTTP schema root) => (w, inr (Some (ServedBy schema root)))
        end
  end.

End WithMetricService.

(** The schema and bindings the router serves: its first
    [GraphqlHTTP] layer. *)
Fixpoint published (stack : list Layer) : option (GraphQLSchema * gmap string Resolver) :=
  match stack with
  | [] => None
  | GraphqlHTTP schema root :: _ => Some (schema, root)
  | _ :: rest => published rest
  end.

End Graphql.

(** * Vocabulary of the statements *)

(** ** Strings *)

(** [true] when no code unit of [s] satisfies [p]. *)
Fixpoint none_of (p : ascii -> bool) (s : string) : bool :=
  match s with
  | "" => true
  | String c r => negb (p c) && none_of p r
  end.




(** ** Computations *)

(** A computation that launches no process. *)
Definition quiet {A} (m : M A) : Prop :=
  ∀ eng w, launches (m eng w).1 = launches w.

(** What [JSON.parse(text)] returns or throws. *)
Definition parsed (text : string) : Result json :=
  match Json.parse text with
  | Some v => inr v
  | None => inl SyntaxError
  end.

(** ** The service *)
Section ServiceVocabulary.
Import DbtLocalMetricService.

(** The process [listMetrics] launches. *)
Definition listMetrics_launch (this : t) (name : option string) : Launch :=
  ExecFileSync "dbt" (listMetrics_args this name) (exec_options this).

(** The process [queryMetric] launches. *)
Definition queryMetric_launch (this : t) (params : QueryParams) : Launch :=
  ExecFileSync "dbt" (queryMetric_args this params) (exec_options this).

(** A service instance for the examples. *)
Definition example_this : t :=
  {| dbtProjectPath := "/project"; dbtProfilePath := None; profile := None;
     credentials := None; target := Some "prod" |}.

(** A query for revenue by the day, in the given format. *)
Definition example_params (fmt : option string) : QueryParams :=
  {| metric_name := "revenue"; grain := "day"; dimensions := None;
     start_date := None; end_date := None; format := fmt |}.

(** What the engine prints for a csv query: a notice, the delimiter
    line, two lines of csv. *)
Definition csv_output : string :=
  "notice" +:+ Js.LF +:+ BREAK_STRING +:+
  "period,revenue" +:+ Js.LF +:+ "2022-01-01,10" +:+ Js.LF.


End ServiceVocabulary.

(** ** The REST handlers *)
Section IndexVocabulary.
Import Index.

(** The format and the content type the /run handler settles on. *)
Definition format_of (accepts : option string) : string :=
  if accepts_csv accepts then "csv" else "json".

Definition content_type_of (accepts : option string) : string :=
  if accepts_csv accepts then "text/csv" else "application/json".

(** A request body with at most a metric name and a grain. *)
Definition run_body (metric_name grain : option json) : RunBody :=
  {| metric_name := metric_name; grain := grain; dimensions := None;
     start_date := None; end_date := None |}.

(** The body of the 400 answer for a missing metric name. *)
Definition metric_name_required : Body :=
  BJson (JObject
    [("error", JString "metric_name is a required property; no metric_name given")]).

(** The body of the 400 answer for a missing grain. *)
Definition grain_required : Body :=
  BJson (JObject [("error", JString "grain is a required property; no grain given")]).

(** The body of a request for [name] by the day. *)
Definition named_request (name : string) : RunBody :=
  run_body (Some (JString name)) (Some (JString "day")).

(** An environment for the examples. *)
Definition example_env : ProcessEnv :=
  {| DBT_PROJECT_PATH := Some "/project"; DBT_TARGET := Some "prod" |}.

(** A metric name that closes the single quote of [--args]. *)
Definition hostile_name : string := "x'; touch /tmp/pwned; echo '".

End IndexVocabulary.

(** ** The GraphQL routes *)
Section GraphqlVocabulary.
Import Graphql.

(** The attributes the row type of [metric] is said to have: period,
    the metric's name and its dimensions; period and the dimensions
    strings, the metric's own attribute a float. *)
Definition attributes_as_claimed (metric : DBTResource) : Prop :=
  let fields := ot_fields (metricToGraphQLType metric) in
  dom fields = {["period"]} ∪ {[name metric]} ∪ list_to_set (dimensions metric)
  ∧ fields !! "period" = Some GraphQLString
  ∧ (∀ d, d ∈ dimensions metric → fields !! d = Some GraphQLString)
  ∧ fields !! name metric = Some GraphQLFloat.

(** The layer [graphqlInit] adds for the metrics it found. *)
Definition layer_of (availableMetrics : list DBTResource) : Layer :=
  if bool_decide (0 < size (root_of availableMetrics))%nat
  then GraphqlHTTP {| query_fields := query_type availableMetrics |}
                   (root_of availableMetrics)
  else Reinit.

(** The world [graphqlInit] leaves: one more discovery made, the
    warning (if any) and the schema on the console, one more layer. *)
Definition after_init (discovery : nat -> Result (list Graphql.DBTResource)) (w : World)
  : World :=
  let found := match discovery (discoveries w) with inl _ => [] | inr ms => ms end in
  {| launches := launches w;
     console := (match discovery (discoveries w) with
                 | inl err => console w ++ [(warn, [LError err])]
                 | inr _ => console w
                 end)
                ++ [(info, [LSchema {| query_fields := query_type found |}])];
     res := res w;
     router := router w ++ [layer_of found];
     discoveries := S (discoveries w) |}.



(** An engine whose every process prints nothing and exits with 0. *)
Definition idle_engine : Engine := fun _ => Exit0 "".


End GraphqlVocabulary.

(** ** Further vocabulary: the constructor, packages and selectors *)
Section SetupVocabulary.
Import DbtLocalMetricService.

(** [toUpperCase] on the letters a to z (other code units unchanged),
    for the examples. *)
Definition ascii_upper (c : ascii) : ascii :=
  let n := nat_of_ascii c in
  if Nat.leb 97 n && Nat.leb n 122 then ascii_of_nat (n - 32) else c.

Fixpoint upper (s : string) : string :=
  match s with
  | "" => ""
  | String c r => String (ascii_upper c) (upper r)
  end.


(** Snowflake credentials for the examples. *)
Definition example_profile : DbtProfile :=
  {| warehouse := SNOWFLAKE;
     secrets := [("account", "acme"); ("password", "hunter2")] |}.

(** [metric[key] === wanted], for a metric that is not null. *)
Definition prop_matches (key wanted : string) (metric : json) : bool :=
  match metric with
  | JObject ms =>
      match member key ms with
      | Some (JString s) => String.eqb s wanted
      | _ => false
      end
  | _ => false
  end.

Definition is_null (v : json) : bool :=
  match v with JNull => true | _ => false end.

(** A selector that is absent or empty lets every metric through. *)
Definition selector_ok (key : string) (sel : option string) (metric : json) : bool :=
  match sel with
  | Some wanted => if Js.truthy wanted then prop_matches key wanted metric else true
  | None => true
  end.

(** A selector that is given and not empty. *)
Definition selector_given (sel : option string) : bool :=
  match sel with
  | Some wanted => Js.truthy wanted
  | None => false
  end.

(** A discovery output of two metrics, a ratio and a simple one. *)
Definition typed_output : string :=
  "{" +:+ Js.q "name" +:+ ":" +:+ Js.q "a" +:+ "," +:+
         Js.q "type" +:+ ":" +:+ Js.q "ratio" +:+ "}" +:+ Js.LF +:+
  "{" +:+ Js.q "name" +:+ ":" +:+ Js.q "b" +:+ "," +:+
         Js.q "type" +:+ ":" +:+ Js.q "simple" +:+ "}" +:+ Js.LF.

End SetupVocabulary.

(** * Properties *)

(** ** The primitives on small inputs *)

Example trimEnd_ex : Js.trimEnd ("a b " +:+ Js.LF) = "a b".
Proof. reflexivity. Qed.

Example match_ex :
  Js.match_object_spans ("x{a}b}c" +:+ Js.LF +:+ "{d" +:+ Js.LF +:+ "{}{}")
  = Some ["{a}b}"; "{}{}"].
Proof. reflexivity. Qed.

Example indexOf_ex : Js.indexOf "abcabc" "ca" = 2 /\ Js.indexOf "abc" "x" = -1.
Proof. split; reflexivity. Qed.

Example slice_ex : Js.slice "abcdef" 2 = "cdef" /\ Js.slice "abc" 16 = "".
Proof. split; reflexivity. Qed.

Example parse_ex1 :
  Json.parse ("{" +:+ Js.q "x" +:+ ":1}") = Some (JObject [("x", JNumber "1")]).
Proof. vm_compute. reflexivity. Qed.

Example parse_ex2 :
  Json.parse ("[ {" +:+ Js.q "a" +:+ ": [1, -2.5e3, true, null]} , " +:+ Js.q "s" +:+ " ]")
  = Some (JArray [JObject [("a", JArray [JNumber "1"; JNumber "-2.5e3"; JBool true; JNull])];
                  JString "s"]).
Proof. vm_compute. reflexivity. Qed.

Example parse_ex3 : Json.parse "[undefined]" = None /\ Json.parse "01" = None
                  /\ Json.parse "[1,]" = None /\ Json.parse "" = None.
Proof. vm_compute. auto. Qed.

Example stringify_ex :
  Json.stringify_object [("metric_name", Some (JString "a'b")); ("grain", None);
                         ("format", Some (JString "json"))]
  = "{" +:+ Js.q "metric_name" +:+ ":" +:+ Js.q "a'b" +:+ ","
        +:+ Js.q "format" +:+ ":" +:+ Js.q "json" +:+ "}".
Proof. vm_compute. reflexivity. Qed.

(** ** [JSON.parse] never runs out of fuel *)
Section ParserFuel.

#[local] Abbreviation len := String.length.

Lemma skip_ws_len (s : string) : (len (skip_ws s) <= len s)%nat.
Proof.
  induction s as [|c s IH]; [done|]. cbn [skip_ws].
  destruct (is_ws c); cbn [String.length]; lia.
Qed.

Lemma starts_with_len c (s r : string) :
  starts_with c s = Some r -> len s = S (len r).
Proof.
  destruct s as [|c' s]; [done|]. cbn.
  by destruct (Ascii.eqb c' c); intros [= ->].
Qed.

Lemma span_digits_len (s ds rest : string) :
  span_digits s = (ds, rest) -> (len rest <= len s)%nat.
Proof.
  revert ds rest. induction s as [|c s IH]; intros ds rest; cbn [span_digits].
  - by intros [= <- <-].
  - destruct (is_digit c).
    + destruct (span_digits s) as [ds' rest'] eqn:E. intros [= <- <-].
      specialize (IH _ _ eq_refl). cbn [String.length]. lia.
    + by intros [= <- <-].
Qed.

Lemma digits1_len (s ds rest : string) :
  digits1 s = Some (ds, rest) -> (len rest <= len s)%nat.
Proof.
  unfold digits1. destruct (span_digits s) as [ds' rest'] eqn:E.
  apply span_digits_len in E. destruct ds'; [done|]. by intros [= <- <-].
Qed.

Lemma opt_frac_len (s f rest : string) :
  opt_frac s = Some (f, rest) -> (len rest <= len s)%nat.
Proof.
  unfold opt_frac. destruct (starts_with "." s) as [r|] eqn:E.
  - apply starts_with_len in E.
    destruct (digits1 r) as [[ds rest']|] eqn:D; [|done].
    apply digits1_len in D. cbn. intros [= <- <-]. lia.
  - by intros [= <- <-].
Qed.

Lemma opt_exp_len (s e rest : string) :
  opt_exp s = Some (e, rest) -> (len rest <= len s)%nat.
Proof.
  unfold opt_exp. destruct s as [|c r]; [by intros [= <- <-]|].
  destruct (_ || _); [|by intros [= <- <-]].
  destruct r as [|sg r']; [done|].
  destruct (_ || _).
  - destruct (digits1 r') as [[ds rest']|] eqn:D; [|done].
    apply digits1_len in D. cbn. intros [= <- <-]. lia.
  - destruct (digits1 (String sg r')) as [[ds rest']|] eqn:D; [|done].
    apply digits1_len in D. cbn in *. intros [= <- <-]. lia.
Qed.

Lemma int_part_len (s i rest : string) :
  int_part s = Some (i, rest) -> (len rest < len s)%nat.
Proof.
  unfold int_part. destruct s as [|c r]; [done|].
  destruct (Ascii.eqb c "0"); [intros [= <- <-]; cbn; lia|].
  destruct (is_digit c); [|done].
  destruct (span_digits r) as [ds rest'] eqn:E. apply span_digits_len in E.
  intros [= <- <-]. cbn. lia.
Qed.

Lemma unsigned_number_len (s lex rest : string) :
  unsigned_number s = Some (lex, rest) -> (len rest < len s)%nat.
Proof.
  unfold unsigned_number.
  destruct (int_part s) as [[i r1]|] eqn:E1; [|done]. cbn.
  destruct (opt_frac r1) as [[f r2]|] eqn:E2; [|done]. cbn.
  destruct (opt_exp r2) as [[e r3]|] eqn:E3; [|done]. cbn.
  intros [= <- <-].
  apply int_part_len in E1. apply opt_frac_len in E2. apply opt_exp_len in E3. lia.
Qed.

Lemma parse_number_len (s lex rest : string) :
  parse_number s = Some (lex, rest) -> (len rest < len s)%nat.
Proof.
  unfold parse_number. destruct (starts_with "-" s) as [r|] eqn:E.
  - apply starts_with_len in E.
    destruct (unsigned_number r) as [[n rest']|] eqn:U; [|done].
    apply unsigned_number_len in U. cbn. intros [= <- <-]. lia.
  - apply unsigned_number_len.
Qed.

Lemma string_chars_len_bounded (n : nat) :
  ∀ s cs rest, (len s <= n)%nat ->
    string_chars s = Some (cs, rest) -> (len rest < len s)%nat.
Proof.
  induction n as [|n IH]; intros s cs rest Hn.
  { destruct s; [done|cbn in Hn; lia]. }
  destruct s as [|c r]; [done|]. cbn [string_chars]. cbn [String.length] in Hn.
  destruct (Ascii.eqb c Js.dq); [intros [= <- <-]; cbn; lia|].
  destruct (Ascii.eqb c "092").
  - destruct r as [|e r']; [done|]. cbn [String.length] in Hn.
    assert (Hsimple : (u ← simple_escape e;
                       '(cs0, rest0) ← string_chars r'; Some (String u cs0, rest0))
                      = Some (cs, rest) -> (len rest < len (String c (String e r')))%nat).
    { destruct (simple_escape e); [|done]. cbn.
      destruct (string_chars r') as [[cs0 rest0]|] eqn:E; [|done].
      apply IH in E; [|lia]. cbn. intros [= <- <-]. lia. }
    destruct (Ascii.eqb e "u") eqn:Eu.
    + apply Ascii.eqb_eq in Eu. subst e.
      destruct r' as [|a [|b [|c' [|d r'']]]]; try exact Hsimple.
      destruct (unicode_escape a b c' d); [|done]. cbn.
      destruct (string_chars r'') as [[cs0 rest0]|] eqn:E; [|done].
      apply IH in E; [|cbn in Hn; lia]. cbn. intros [= <- <-]. lia.
    + intros H. apply Hsimple. revert H.
      destruct e as [[] [] [] [] [] [] [] []]; try done.
  - destruct (Nat.ltb _ 32); [done|].
    destruct (string_chars r) as [[cs0 rest0]|] eqn:E; [|done].
    apply IH in E; [|lia]. cbn. intros [= <- <-]. lia.
Qed.

Lemma string_chars_len (s cs rest : string) :
  string_chars s = Some (cs, rest) -> (len rest < len s)%nat.
Proof. by apply (string_chars_len_bounded (len s)). Qed.

Lemma prefix_drop_len (w s : string) :
  String.prefix w s = true -> (len (Js.drop (len w) s) + len w = len s)%nat.
Proof.
  revert s. induction w as [|c w IH]; intros s; [cbn; lia|].
  destruct s as [|c' s]; [done|]. cbn.
  destruct (ascii_dec c c'); [|done]. intros H. apply IH in H. lia.
Qed.

Lemma literal_len word v (s : string) v' rest :
  (0 < len word)%nat -> literal word v s = POk v' rest -> (len rest < len s)%nat.
Proof.
  intros Hw. unfold literal. destruct (String.prefix word s) eqn:E; [|done].
  apply prefix_drop_len in E. intros [= _ <-]. lia.
Qed.

Lemma number_len (s : string) v rest :
  number s = POk v rest -> (len rest < len s)%nat.
Proof.
  unfold number. destruct (parse_number s) as [[lex rest']|] eqn:E; [|done].
  apply parse_number_len in E. by intros [= _ <-].
Qed.

(** A successful parse consumes at least one character. *)
Lemma parse_shrinks (n : nat) :
  (∀ s v rest, parse_value n s = POk v rest -> (len rest < len s)%nat)
  ∧ (∀ s vs rest, parse_elements n s = POk vs rest -> (len rest < len s)%nat)
  ∧ (∀ s ms rest, parse_members n s = POk ms rest -> (len rest < len s)%nat).
Proof.
  induction n as [|n (IHv & IHe & IHm)]; [done|].
  split; [|split].
  - intros s v rest. cbn [parse_value].
    pose proof (skip_ws_len s) as Hs.
    destruct (skip_ws s) as [|c r]; [done|]. cbn [String.length] in Hs.
    pose proof (skip_ws_len r) as Hr.
    destruct (Ascii.eqb c "{").
    { destruct (starts_with "}" (skip_ws r)) as [r'|] eqn:E.
      - apply starts_with_len in E. intros [= _ <-]. lia.
      - destruct (parse_members n (skip_ws r)) as [ms rest'| |] eqn:P; try done.
        apply IHm in P. intros [= _ <-]. lia. }
    destruct (Ascii.eqb c "[").
    { destruct (starts_with "]" (skip_ws r)) as [r'|] eqn:E.
      - apply starts_with_len in E. intros [= _ <-]. lia.
      - destruct (parse_elements n (skip_ws r)) as [vs rest'| |] eqn:P; try done.
        apply IHe in P. intros [= _ <-]. lia. }
    destruct (Ascii.eqb c Js.dq).
    { destruct (string_chars r) as [[str rest']|] eqn:E; [|done].
      apply string_chars_len in E. intros [= _ <-]. lia. }
    destruct (Ascii.eqb c "t").
    { intros H. apply literal_len in H; [cbn [String.length] in H; lia|cbn; lia]. }
    destruct (Ascii.eqb c "f").
    { intros H. apply literal_len in H; [cbn [String.length] in H; lia|cbn; lia]. }
    destruct (Ascii.eqb c "n").
    { intros H. apply literal_len in H; [cbn [String.length] in H; lia|cbn; lia]. }
    intros H. apply number_len in H. cbn [String.length] in H. lia.
  - intros s vs rest. cbn [parse_elements].
    destruct (parse_value n s) as [v rest1| |] eqn:P; try done.
    apply IHv in P. pose proof (skip_ws_len rest1) as Hr.
    destruct (starts_with "," (skip_ws rest1)) as [r|] eqn:E.
    + apply starts_with_len in E.
      destruct (parse_elements n r) as [vs' rest'| |] eqn:P'; try done.
      apply IHe in P'. intros [= _ <-]. lia.
    + destruct (starts_with "]" (skip_ws rest1)) as [r|] eqn:E'; [|done].
      apply starts_with_len in E'. intros [= _ <-]. lia.
  - intros s ms rest. cbn [parse_members].
    pose proof (skip_ws_len s) as Hs.
    destruct (starts_with Js.dq (skip_ws s)) as [r|] eqn:E0; [|done].
    apply starts_with_len in E0.
    destruct (string_chars r) as [[k rest0]|] eqn:E1; [|done].
    apply string_chars_len in E1. pose proof (skip_ws_len rest0) as Hr0.
    destruct (starts_with ":" (skip_ws rest0)) as [r1|] eqn:E2; [|done].
    apply starts_with_len in E2.
    destruct (parse_value n r1) as [v rest1| |] eqn:P; try done.
    apply IHv in P. pose proof (skip_ws_len rest1) as Hr1.
    destruct (starts_with "," (skip_ws rest1)) as [r2|] eqn:E3.
    + apply starts_with_len in E3.
      destruct (parse_members n r2) as [ms' rest'| |] eqn:P'; try done.
      apply IHm in P'. intros [= _ <-]. lia.
    + destruct (starts_with "}" (skip_ws rest1)) as [r2|] eqn:E4; [|done].
      apply starts_with_len in E4. intros [= _ <-]. lia.
Qed.

(** With two units of fuel per character no parser runs out. *)
Lemma parse_fueled (n : nat) :
  (∀ s, (2 * len s < n)%nat -> parse_value n s ≠ PFuel)
  ∧ (∀ s, (2 * len s + 1 < n)%nat -> parse_elements n s ≠ PFuel)
  ∧ (∀ s, (2 * len s + 1 < n)%nat -> parse_members n s ≠ PFuel).
Proof.
  induction n as [|n (IHv & IHe & IHm)]; [repeat split; intros; lia|].
  destruct (parse_shrinks n) as (Sv & Se & Sm).
  split; [|split].
  - intros s Hn. cbn [parse_value].
    pose proof (skip_ws_len s) as Hs.
    destruct (skip_ws s) as [|c r]; [done|]. cbn [String.length] in Hs.
    pose proof (skip_ws_len r) as Hr.
    destruct (Ascii.eqb c "{").
    { destruct (starts_with "}" (skip_ws r)); [done|].
      destruct (parse_members n (skip_ws r)) eqn:P; try done.
      exfalso. revert P. apply IHm. lia. }
    destruct (Ascii.eqb c "[").
    { destruct (starts_with "]" (skip_ws r)); [done|].
      destruct (parse_elements n (skip_ws r)) eqn:P; try done.
      exfalso. revert P. apply IHe. lia. }
    destruct (Ascii.eqb c Js.dq).
    { by destruct (string_chars r) as [[]|]. }
    unfold literal, number.
    repeat (match goal with
            | |- context [if ?b then _ else _] => destruct b
            | |- context [match parse_number ?x with _ => _ end] =>
                destruct (parse_number x) as [[]|]
            end; try done).
  - intros s Hn. cbn [parse_elements].
    destruct (parse_value n s) as [v rest1| |] eqn:P; try done.
    + apply Sv in P. pose proof (skip_ws_len rest1) as Hr.
      destruct (starts_with "," (skip_ws rest1)) as [r|] eqn:E.
      * apply starts_with_len in E.
        destruct (parse_elements n r) eqn:P'; try done.
        exfalso. revert P'. apply IHe. lia.
      * by destruct (starts_with "]" (skip_ws rest1)).
    + exfalso. revert P. apply IHv. lia.
  - intros s Hn. cbn [parse_members].
    pose proof (skip_ws_len s) as Hs.
    destruct (starts_with Js.dq (skip_ws s)) as [r|] eqn:E0; [|done].
    apply starts_with_len in E0.
    destruct (string_chars r) as [[k rest0]|] eqn:E1; [|done].
    apply string_chars_len in E1. pose proof (skip_ws_len rest0) as Hr0.
    destruct (starts_with ":" (skip_ws rest0)) as [r1|] eqn:E2; [|done].
    apply starts_with_len in E2.
    destruct (parse_value n r1) as [v rest1| |] eqn:P; try done.
    + apply Sv in P. pose proof (skip_ws_len rest1) as Hr1.
      destruct (starts_with "," (skip_ws rest1)) as [r2|] eqn:E3.
      * apply starts_with_len in E3.
        destruct (parse_members n r2) eqn:P'; try done.
        exfalso. revert P'. apply IHm. lia.
      * by destruct (starts_with "}" (skip_ws rest1)).
    + exfalso. revert P. apply IHv. lia.
Qed.

(** [Json.parse] answers [None] only for a text that is not JSON: the
    fuel it starts with is never used up. *)
Theorem parse_fuel_suffices (s : string) : parse_value (fuel_for s) s ≠ PFuel.
Proof. apply parse_fueled. unfold fuel_for. lia. Qed.

(** A text that opens with a bracket parses to an array, if at all. *)
Lemma parse_bracket_array (text : string) (v : json) :
  Json.parse (String "[" text) = Some v -> ∃ xs, v = JArray xs.
Proof.
  unfold Json.parse, fuel_for. cbn [String.length Nat.mul Nat.add parse_value skip_ws].
  replace (is_ws "[") with false by reflexivity.
  replace (Ascii.eqb "[" "{") with false by reflexivity.
  replace (Ascii.eqb "[" "[") with true by reflexivity.
  destruct (starts_with "]" (skip_ws text)).
  - destruct (String.eqb _ _); [|done]. intros [= <-]. by eexists.
  - destruct (parse_elements _ _) as [vs rest| |]; try done.
    destruct (String.eqb _ _); [|done]. intros [= <-]. by eexists.
Qed.

End ParserFuel.

(** ** Schema synthesis: [metricToGraphQLType] *)
Section Synthesis.
Import Graphql.

Lemma foldl_insert_const_lookup {V} (v : V) (dims : list string) (acc : gmap string V)
      (k : string) :
  foldl (fun o kv => <[fst kv := snd kv]> o) acc ((fun d => (d, v)) <$> dims) !! k
  = if decide (k ∈ dims) then Some v else acc !! k.
Proof.
  revert acc. induction dims as [|d dims IH]; intros acc; cbn [foldl fmap list_fmap].
  - rewrite decide_False; [done | set_solver].
  - rewrite IH. destruct (decide (k ∈ dims)) as [Hin|Hout].
    + rewrite decide_True; [done | by right].
    + destruct (decide (k = d)) as [->|Hne].
      * rewrite decide_True; [by rewrite lookup_insert_eq | by left].
      * rewrite decide_False; [by rewrite lookup_insert_ne |].
        intros [?|?]%elem_of_cons; done.
Qed.

(** Every attribute of the row type, with its type. *)
Lemma metricToGraphQLType_lookup (metric : DBTResource) (k : string) :
  ot_fields (metricToGraphQLType metric) !! k
  = if decide (k ∈ dimensions metric) then Some GraphQLString
    else if decide (k = name metric) then Some GraphQLFloat
    else if decide (k = "period") then Some GraphQLString
    else None.
Proof.
  unfold metricToGraphQLType, spread, Object_fromEntries. simpl.
  rewrite lookup_union, foldl_insert_const_lookup, lookup_empty.
  destruct (decide (k ∈ dimensions metric)); simpl.
  - by rewrite union_Some_l.
  - rewrite (left_id None _).
    destruct (decide (k = name metric)) as [->|Hne].
    + by rewrite lookup_insert_eq.
    + rewrite lookup_insert_ne by done.
      destruct (decide (k = "period")) as [->|Hne'].
      * by rewrite lookup_insert_eq.
      * by rewrite lookup_insert_ne.
Qed.

Lemma metricToGraphQLType_dom (metric : DBTResource) :
  dom (ot_fields (metricToGraphQLType metric))
  = {["period"]} ∪ {[name metric]} ∪ list_to_set (dimensions metric).
Proof.
  apply set_eq. intros k.
  rewrite elem_of_dom, metricToGraphQLType_lookup.
  rewrite !elem_of_union, !elem_of_singleton, elem_of_list_to_set.
  repeat case_decide; split; intros Hk; try (by eauto); tauto.
Qed.

End Synthesis.

Section SynthesisClaims.
Import Graphql.

(** C5, as stated, fails: a metric that lists its own name among its
    dimensions gets a string attribute of that name, not a numeric one
    (the spread of the dimension entries overwrites it). *)
Lemma attributes_as_claimed_counterexample :
  ¬ attributes_as_claimed {| name := "region"; dimensions := ["region"] |}.
Proof.
  intros (_ & _ & _ & Hfloat).
  rewrite metricToGraphQLType_lookup in Hfloat. cbn [name dimensions] in Hfloat.
  rewrite decide_True in Hfloat by set_solver. discriminate Hfloat.
Qed.

(** C5 (amended): for a metric whose name is neither period nor one of
    its own dimensions, the row type has exactly the attributes period,
    the metric's name and the dimensions; period and every dimension are
    strings and the attribute named after the metric is a float. *)
Theorem metricToGraphQLType_attributes (metric : DBTResource) :
  name metric ≠ "period" →
  name metric ∉ dimensions metric →
  attributes_as_claimed metric.
Proof.
  intros Hperiod Hfresh. unfold attributes_as_claimed. cbv zeta.
  split; [apply metricToGraphQLType_dom|].
  rewrite !metricToGraphQLType_lookup.
  split; [|split].
  - destruct (decide ("period" ∈ dimensions metric)); [done|].
    rewrite decide_False by done. by rewrite decide_True.
  - intros d Hd. rewrite metricToGraphQLType_lookup. by rewrite decide_True.
  - rewrite decide_False by done. by rewrite decide_True.
Qed.

Lemma metricToGraphQLType_attributes_witness :
  let metric := {| name := "revenue"; dimensions := ["region"; "channel"] |} in
  name metric ≠ "period" ∧ (name metric ∉ dimensions metric)
  ∧ attributes_as_claimed metric
  ∧ dom (ot_fields (metricToGraphQLType metric))
    = list_to_set ["period"; "revenue"; "region"; "channel"].
Proof.
  cbv zeta.
  assert (H1 : "revenue" ≠ "period") by discriminate.
  assert (H2 : "revenue" ∉ ["region"; "channel"]).
  { intros [H|[H|H%elem_of_nil]%elem_of_cons]%elem_of_cons; [discriminate..|done]. }
  split; [exact H1|]. split; [exact H2|].
  pose proof (metricToGraphQLType_attributes
                {| name := "revenue"; dimensions := ["region"; "channel"] |} H1 H2)
    as Hattrs.
  split; [exact Hattrs|].
  destruct Hattrs as [-> _]. cbn [name dimensions]. set_solver.
Defined.

(** X3: whatever the metric, the attributes of its row type are period,
    the metric's name and its dimensions, and nothing else. *)
Theorem row_type_attribute_set (metric : DBTResource) :
  dom (ot_fields (metricToGraphQLType metric))
  = {["period"]} ∪ {[name metric]} ∪ list_to_set (dimensions metric).
Proof. apply metricToGraphQLType_dom. Qed.

End SynthesisClaims.

(** ** Dimension derivation: [metricResolver] *)
Section Resolver.
Import Graphql.



End Resolver.

(** ** Facts about the string primitives *)
Section StringFacts.

Lemma sapp_cons (c : ascii) (s t : string) : String c s +:+ t = String c (s +:+ t).
Proof. reflexivity. Qed.

Lemma sapp_nil_l (s : string) : "" +:+ s = s.
Proof. reflexivity. Qed.

Lemma sapp_nil_r (s : string) : s +:+ "" = s.
Proof. induction s as [|c s IH]; [done|]. by rewrite sapp_cons, IH. Qed.

Lemma sapp_assoc (s t u : string) : (s +:+ t) +:+ u = s +:+ t +:+ u.
Proof. induction s as [|c s IH]; [done|]. by rewrite !sapp_cons, IH. Qed.

Lemma slength_app (s t : string) :
  String.length (s +:+ t) = (String.length s + String.length t)%nat.
Proof. induction s as [|c s IH]; [done|]. rewrite sapp_cons. cbn. by rewrite IH. Qed.


(** *** [replace_all] *)




(** *** [trimEnd] *)



(** *** The matches of the object-span expression *)

Lemma take_line_app (a rest : string) :
  none_of Js.is_line_terminator a = true ->
  Js.take_line (a +:+ rest) = a +:+ Js.take_line rest.
Proof.
  induction a as [|c a IH]; [done|]. cbn [none_of].
  intros [Hc Ha]%andb_true_iff. apply negb_true_iff in Hc.
  rewrite !sapp_cons. cbn [Js.take_line]. rewrite Hc. by rewrite IH.
Qed.









End StringFacts.

(** ** Facts about the computations *)
Section Computations.

Lemma bind_run {A B} (m : M A) (k : A -> M B) eng w :
  (m ≫= k) eng w
  = match m eng w with
    | (w', inr a) => k a eng w'
    | (w', inl e) => (w', inl e)
    end.
Proof. reflexivity. Qed.

Lemma quiet_ret {A} (a : A) : quiet (mret a).
Proof. by intros eng w. Qed.

Lemma quiet_throw {A} e : quiet (@throw A e).
Proof. by intros eng w. Qed.

Lemma quiet_bind {A B} (m : M A) (k : A -> M B) :
  quiet m -> (∀ a, quiet (k a)) -> quiet (m ≫= k).
Proof.
  intros Hm Hk eng w. rewrite bind_run. specialize (Hm eng w).
  destruct (m eng w) as [w' [e|a]]; cbn in *; [done|].
  by rewrite Hk.
Qed.

Lemma quiet_try_catch {A} (m : M A) (handler : JsError -> M A) :
  quiet m -> (∀ e, quiet (handler e)) -> quiet (try_catch m handler).
Proof.
  intros Hm Hh eng w. unfold try_catch. specialize (Hm eng w).
  destruct (m eng w) as [w' [e|a]]; cbn in *; [|done].
  by rewrite Hh.
Qed.

Lemma quiet_console_log l args : quiet (console_log l args).
Proof. by intros eng w. Qed.

Lemma quiet_of_option {A} e (o : option A) : quiet (of_option e o).
Proof. by destruct o. Qed.

Lemma quiet_JSON_parse text : quiet (JSON_parse text).
Proof. apply quiet_of_option. Qed.

Lemma quiet_res_type ty : quiet (res_type ty).
Proof. by intros eng w. Qed.

Lemma quiet_res_status code : quiet (res_status code).
Proof. by intros eng w. Qed.

Lemma quiet_res_send b : quiet (res_send b).
Proof. intros eng w. unfold res_send. by destruct (sent (res w)). Qed.

Lemma quiet_filter_step key sel metrics :
  quiet (DbtLocalMetricService.filter_step key sel metrics).
Proof.
  unfold DbtLocalMetricService.filter_step.
  destruct sel as [wanted|]; [|apply quiet_ret].
  destruct (Js.truthy wanted); [|apply quiet_ret].
  destruct metrics; try apply quiet_throw.
  destruct (DbtLocalMetricService.filter_by _ _ _); [apply quiet_throw|apply quiet_ret].
Qed.

(** A launch followed by quiet steps leaves exactly that launch behind. *)
Lemma launches_launch_then {B} (l : Launch) (k : string -> M B) eng w :
  (∀ out, quiet (k out)) ->
  launches ((launch l ≫= k) eng w).1 = (launches w ++ [l])%list.
Proof.
  intros Hk. rewrite bind_run. unfold launch.
  destruct (eng l) as [out|st out]; [|done].
  by rewrite Hk.
Qed.

Lemma launches_quiet_then {A B} (m : M A) (k : A -> M B) (ls : list Launch) eng w :
  quiet m ->
  (∀ a w', launches w' = launches w -> launches (k a eng w').1 = ls) ->
  (∀ e w', (m eng w) = (w', inl e) -> launches w = ls) ->
  launches ((m ≫= k) eng w).1 = ls.
Proof.
  intros Hm Hk He. rewrite bind_run. specialize (Hm eng w).
  destruct (m eng w) as [w' [e|a]] eqn:E; cbn in *.
  - rewrite Hm. by eapply He.
  - by apply Hk.
Qed.

Lemma launches_try_catch {A} (m : M A) (handler : JsError -> M A)
      (ls : list Launch) eng w :
  launches (m eng w).1 = ls ->
  (∀ e, quiet (handler e)) ->
  launches (try_catch m handler eng w).1 = ls.
Proof.
  intros Hm Hh. unfold try_catch.
  destruct (m eng w) as [w' [e|a]]; cbn [fst] in *; [|done].
  by rewrite Hh.
Qed.

End Computations.

Create HintDb quiet.
#[local] Hint Resolve quiet_ret quiet_throw quiet_console_log quiet_JSON_parse
quiet_res_type quiet_res_status quiet_res_send quiet_filter_step : quiet.

(** ** Discovery: [listMetrics] *)
Section Discovery.
Import DbtLocalMetricService.


(** After a successful exit and without selectors, the result is what
    [JSON.parse] makes of the wrapped spans. *)
Lemma listMetrics_exit0 this name eng w out :
  eng (listMetrics_launch this name) = Exit0 out ->
  (listMetrics this name no_selectors eng w).2 = parsed (wrap_spans out).
Proof.
  intros Hout. unfold listMetrics.
  rewrite bind_run. unfold console_log at 1, modify at 1. cbv beta iota.
  rewrite bind_run. unfold execFileSync, launch. fold (listMetrics_launch this name).
  rewrite Hout. cbv beta iota.
  rewrite bind_run. unfold JSON_parse, of_option, parsed.
  by destruct (Json.parse _).
Qed.

(** A non-zero exit of the child process is thrown on. *)
Lemma listMetrics_exit_fail this name selectors eng w status out :
  eng (listMetrics_launch this name) = ExitFail status out ->
  (listMetrics this name selectors eng w).2 = inl (ChildProcessError status out).
Proof.
  intros Hout. unfold listMetrics.
  rewrite bind_run. unfold console_log at 1, modify at 1. cbv beta iota.
  rewrite bind_run. unfold execFileSync, launch. fold (listMetrics_launch this name).
  by rewrite Hout.
Qed.

Lemma index_listMetrics_exit0 env name eng w out :
  eng (ExecSync (Index.listMetrics_command env name)) = Exit0 out ->
  (Index.listMetrics env name {| Index.type := None; Index.model := None |} eng w).2
  = parsed ("[" +:+ Js.replace_all Js.lf "," (Js.trimEnd out) +:+ "]").
Proof.
  intros Hout. unfold Index.listMetrics.
  rewrite bind_run. unfold execSync, launch. rewrite Hout. cbv beta iota.
  rewrite bind_run. unfold JSON_parse, of_option, parsed.
  by destruct (Json.parse _).
Qed.






End Discovery.

(** ** The name selector of the service's [listMetrics] *)
Section Selector.
Import DbtLocalMetricService.




(** *** No span in the output *)

Lemma listMetrics_no_span this name eng w out :
  eng (listMetrics_launch this name) = Exit0 out ->
  Js.match_object_spans (Js.trimEnd out) = None ->
  wrap_spans out = "[undefined]"
  ∧ (listMetrics this name no_selectors eng w).2 = inl SyntaxError.
Proof.
  intros Hout Hnone.
  assert (Hwrap : wrap_spans out = "[undefined]") by (unfold wrap_spans; by rewrite Hnone).
  split; [exact Hwrap|].
  by rewrite (listMetrics_exit0 _ _ _ _ _ Hout), Hwrap.
Qed.

(** C7 (failing input): the discovery process exits with status 0 and
    prints no object, a name filter is given; [listMetrics] of the
    service throws the [SyntaxError] of parsing the text [undefined]
    between brackets where an empty list is expected (with or without a
    name filter), while [listMetrics] of index.ts returns the empty list
    on the same output. *)
Theorem listMetrics_no_match_throws (this : t) (env : Index.ProcessEnv)
        (name : option string) (w : World) :
  wrap_spans "" = "[undefined]"
  ∧ (listMetrics this (Some "foo") no_selectors idle_engine w).2 = inl SyntaxError
  ∧ (listMetrics this name no_selectors idle_engine w).2 = inl SyntaxError
  ∧ (Index.listMetrics env (Some "foo") {| Index.type := None; Index.model := None |}
       idle_engine w).2 = inr (JArray []).
Proof.
  split; [reflexivity|]. split; [|split].
  - by apply (listMetrics_no_span _ _ _ _ "").
  - by apply (listMetrics_no_span _ _ _ _ "").
  - by rewrite (index_listMetrics_exit0 _ _ _ _ "").
Qed.

End Selector.

(** ** Execution: [queryMetric] *)
Section Execution.
Import DbtLocalMetricService.

Lemma queryMetric_launches this params eng w :
  launches (queryMetric this params eng w).1
  = (launches w ++ [queryMetric_launch this params])%list.
Proof.
  unfold queryMetric.
  apply launches_quiet_then; [auto with quiet| |by intros e w' [= _ ?]].
  intros [] w' <-. apply launches_try_catch.
  - unfold execFileSync. apply launches_launch_then. auto with quiet.
  - intros e. apply quiet_bind; auto with quiet.
Qed.

(** After a successful exit: the parsed payload, or an [Error] without
    a message when the payload is not JSON. *)
Lemma queryMetric_exit0 this params eng w raw :
  eng (queryMetric_launch this params) = Exit0 raw ->
  (queryMetric this params eng w).2
  = match Json.parse (payload_of raw) with
    | Some v => inr v
    | None => inl (Error_ None)
    end.
Proof.
  intros Hraw. unfold queryMetric.
  rewrite bind_run. unfold console_log at 1, modify at 1. cbv beta iota.
  unfold try_catch. rewrite bind_run. unfold execFileSync, launch.
  fold (queryMetric_launch this params). rewrite Hraw. cbv beta iota.
  unfold JSON_parse, of_option. by destruct (Json.parse _).
Qed.

(** After a non-zero exit: an [Error] whose message is the stdout of
    the child process. *)
Lemma queryMetric_exit_fail this params eng w status out :
  eng (queryMetric_launch this params) = ExitFail status out ->
  (queryMetric this params eng w).2 = inl (Error_ (Some out)).
Proof.
  intros Hraw. unfold queryMetric.
  rewrite bind_run. unfold console_log at 1, modify at 1. cbv beta iota.
  unfold try_catch. rewrite bind_run. unfold execFileSync, launch.
  fold (queryMetric_launch this params). by rewrite Hraw.
Qed.

(** *** Where the payload starts *)

Lemma prefix_app (p s : string) : String.prefix p (p +:+ s) = true.
Proof.
  induction p as [|c p IH]; [by destruct s|].
  rewrite sapp_cons. cbn. by destruct (ascii_dec c c).
Qed.

Lemma indexOf_from_app (pre rest : string) (i : Z) :
  none_of (Ascii.eqb "<") pre = true ->
  Js.indexOf_from BREAK_STRING (pre +:+ BREAK_STRING +:+ rest) i
  = i + Z.of_nat (String.length pre).
Proof.
  revert i. induction pre as [|c pre IH]; intros i Hfree.
  - rewrite sapp_nil_l. unfold Js.indexOf_from.
    destruct (BREAK_STRING +:+ rest) eqn:E; [done|].
    rewrite <- E, prefix_app. cbn. lia.
  - cbn [none_of] in Hfree. apply andb_true_iff in Hfree as [Hc Hfree].
    rewrite sapp_cons. cbn [Js.indexOf_from].
    replace (String.prefix BREAK_STRING (String c (pre +:+ BREAK_STRING +:+ rest)))
      with false.
    + rewrite IH by done. cbn [String.length]. lia.
    + unfold BREAK_STRING. rewrite sapp_cons. cbn [String.prefix].
      destruct (ascii_dec "<" c) as [<-|Hne]; [discriminate Hc | done].
Qed.

Lemma drop_app (a rest : string) : Js.drop (String.length a) (a +:+ rest) = rest.
Proof. induction a as [|c a IH]; [by destruct rest|]. exact IH. Qed.

(** With the delimiter in the output after a preamble free of [<], the
    text handed to [JSON.parse] is what follows the delimiter. *)
Lemma payload_of_delimited (pre payload : string) :
  none_of (Ascii.eqb "<") pre = true ->
  payload_of (pre +:+ BREAK_STRING +:+ payload) = payload.
Proof.
  intros Hfree. unfold payload_of, Js.indexOf, Js.slice.
  rewrite indexOf_from_app by done.
  rewrite !slength_app.
  set (n := String.length pre). set (b := String.length BREAK_STRING).
  set (m := String.length payload).
  replace (0 + Z.of_nat n + Z.of_nat b <? 0) with false by (symmetry; apply Z.ltb_ge; lia).
  rewrite Z.min_l by lia.
  replace (Z.to_nat (0 + Z.of_nat n + Z.of_nat b)) with (String.length (pre +:+ BREAK_STRING))
    by (rewrite slength_app; fold n b; lia).
  rewrite <- sapp_assoc. apply drop_app.
Qed.

(** C1 (failing input): the engine prints the marker without its line
    feed, so the delimiter is absent; [indexOf] answers [-1], the slice
    starts at offset 16 and [queryMetric] returns the value parsed from
    there where a failure is expected. With the delimiter in place the
    text after it is parsed. *)
Theorem queryMetric_missing_delimiter (this : t) (params : QueryParams) (w : World) :
  let raw := "<<<MAPI-BEGIN>>>{" +:+ Js.q "x" +:+ ":1}" in
  let good := "notice" +:+ Js.LF +:+ BREAK_STRING +:+ "{" +:+ Js.q "x" +:+ ":1}" in
  Js.indexOf raw BREAK_STRING = -1
  ∧ payload_of raw = Js.slice raw 16
  ∧ (queryMetric this params (fun _ => Exit0 raw) w).2
    = inr (JObject [("x", JNumber "1")])
  ∧ (queryMetric this params (fun _ => Exit0 good) w).2
    = inr (JObject [("x", JNumber "1")]).
Proof.
  cbv zeta. split; [reflexivity|]. split; [reflexivity|]. split.
  - by rewrite (queryMetric_exit0 _ _ _ _ ("<<<MAPI-BEGIN>>>{" +:+ Js.q "x" +:+ ":1}")).
  - by rewrite (queryMetric_exit0 _ _ _ _
                  ("notice" +:+ Js.LF +:+ BREAK_STRING +:+ "{" +:+ Js.q "x" +:+ ":1}")).
Qed.

(** C6 (failing input): asked for csv, the engine prints a csv payload
    after the delimiter; [queryMetric] hands the payload to [JSON.parse]
    all the same and throws, where the raw text is expected. The csv
    format does reach the engine, and whatever the format the payload
    after the delimiter is parsed as JSON. *)
Theorem queryMetric_csv_is_parsed :
  payload_of csv_output = "period,revenue" +:+ Js.LF +:+ "2022-01-01,10" +:+ Js.LF
  ∧ last (queryMetric_args example_this (example_params (Some "csv")))
    = Some ("{" +:+ Js.q "metric_name" +:+ ":" +:+ Js.q "revenue" +:+ ","
                +:+ Js.q "grain" +:+ ":" +:+ Js.q "day" +:+ ","
                +:+ Js.q "format" +:+ ":" +:+ Js.q "csv" +:+ "}")
  ∧ (∀ this w, (queryMetric this (example_params (Some "csv"))
                  (fun _ => Exit0 csv_output) w).2 = inl (Error_ None))
  ∧ (∀ this params eng w pre payload,
        none_of (Ascii.eqb "<") pre = true ->
        eng (queryMetric_launch this params)
          = Exit0 (pre +:+ BREAK_STRING +:+ payload) ->
        (queryMetric this params eng w).2
        = match Json.parse payload with
          | Some v => inr v
          | None => inl (Error_ None)
          end).
Proof.
  split; [reflexivity|]. split; [reflexivity|]. split.
  - intros this w. by rewrite (queryMetric_exit0 _ _ _ _ csv_output).
  - intros this params eng w pre payload Hfree Hraw.
    by rewrite (queryMetric_exit0 _ _ _ _ _ Hraw), payload_of_delimited.
Qed.

(** X1: a non-zero exit of the engine surfaces as an [Error] that carries
    what the engine printed. *)
Theorem queryMetric_engine_failure (this : t) (params : QueryParams) (w : World)
        (status : Z) (out : string) :
  (queryMetric this params (fun _ => ExitFail status out) w).2 = inl (Error_ (Some out)).
Proof. by apply (queryMetric_exit_fail _ _ _ _ status). Qed.

(** X2: a non-zero exit of the discovery process is thrown on to the
    caller of [listMetrics]. *)
Theorem listMetrics_engine_failure (this : t) (name : option string)
        (selectors : Selectors) (w : World) (status : Z) (out : string) :
  (listMetrics this name selectors (fun _ => ExitFail status out) w).2
  = inl (ChildProcessError status out).
Proof. by apply listMetrics_exit_fail. Qed.

End Execution.

(** ** The POST /run handler of index.ts *)
Section RunHandler.
Import Index.

#[local] Arguments run_command : simpl never.
#[local] Arguments Js.slice : simpl never.
#[local] Arguments Js.indexOf : simpl never.

(** C9 (failing input): a body with a grain and no metric_name (or with
    a metric_name and no grain). The handler sends the 400 answer and
    then, having not returned, still hands the run_metric command to the
    process launcher. *)
Theorem run_handler_missing_metric_name
        (env : ProcessEnv) (accepts : option string) (eng : Engine) :
  let no_name := run_body None (Some (JString "day")) in
  let no_grain := run_body (Some (JString "revenue")) None in
  let w1 := (run_handler env accepts no_name eng initial_world).1 in
  let w2 := (run_handler env accepts no_grain eng initial_world).1 in
  sent (res w1) = Some {| sent_status := 400;
                          sent_type := Some (content_type_of accepts);
                          sent_body := Some metric_name_required |}
  ∧ launches w1 = [ExecSync (run_command env no_name (format_of accepts))]
  ∧ sent (res w2) = Some {| sent_status := 400;
                            sent_type := Some (content_type_of accepts);
                            sent_body := Some grain_required |}
  ∧ launches w2 = [ExecSync (run_command env no_grain (format_of accepts))].
Proof.
  cbv zeta. unfold run_handler, format_of, content_type_of.
  destruct (accepts_csv accepts); cbn;
    unfold try_catch, mbind, M_bind, bind, execSync, launch; cbn;
    destruct (eng _); destruct (eng _); cbn; done.
Qed.

(** C8 (failing input): POST /run with a metric name holding a single
    quote. The handler hands the launcher one shell command string with
    the name spliced into it, so the command differs from name to name
    and the quote ends the [--args] word; the service class, on the
    same request, launches dbt with an argument vector whose only
    element that depends on the name is the [--args] value. *)
Theorem run_handler_shell_command :
  (∀ (env : ProcessEnv) (accepts : option string) (eng : Engine) (c : ascii) (rest : string),
      let body := named_request (String c rest) in
      launches (run_handler env accepts body eng initial_world).1
      = [ExecSync (run_command env body (format_of accepts))]
      ∧ run_command env body (format_of accepts)
        = "cd " +:+ interpolate (DBT_PROJECT_PATH env) +:+ " &&" +:+
          "            dbt run-operation --target " +:+ interpolate (DBT_TARGET env) +:+
          " dbt_metrics_api.run_metric --args '" +:+
          stringify (JObject [("metric_name", JString (String c rest));
                              ("grain", JString "day");
                              ("format", JString (format_of accepts))]) +:+
          "'" +:+ Js.LF +:+ "        ")
  ∧ run_command example_env (named_request hostile_name) "json"
    = "cd /project &&            dbt run-operation --target prod " +:+
      "dbt_metrics_api.run_metric --args '{" +:+ Js.q "metric_name" +:+ ":" +:+ Js.DQ +:+
      "x'; touch /tmp/pwned; echo '" +:+
      Js.DQ +:+ "," +:+ Js.q "grain" +:+ ":" +:+ Js.q "day" +:+ "," +:+
      Js.q "format" +:+ ":" +:+ Js.q "json" +:+ "}'" +:+ Js.LF +:+ "        "
  ∧ run_command example_env (named_request "revenue") "json"
    ≠ run_command example_env (named_request "margin") "json"
  ∧ (∀ (this : DbtLocalMetricService.t) (p : DbtLocalMetricService.QueryParams)
       (eng : Engine) (w : World),
      launches (DbtLocalMetricService.queryMetric this p eng w).1
      = (launches w ++
         [ExecFileSync "dbt"
            (["run-operation"] ++ DbtLocalMetricService.connection_flags this ++
             ["dbt_metrics_api.run_metric"; "--args";
              stringify_object (DbtLocalMetricService.args_props p)])
            (DbtLocalMetricService.exec_options this)])%list).
Proof.
  split; [|split; [|split]].
  - intros env accepts eng c rest. cbv zeta. split.
    + unfold run_handler, format_of.
      destruct (accepts_csv accepts); cbn;
        unfold try_catch, mbind, M_bind, bind, execSync, launch; cbn;
        destruct (eng _); cbn; done.
    + reflexivity.
  - by vm_compute.
  - by vm_compute.
  - intros this p eng w. apply queryMetric_launches.
Qed.

End RunHandler.

(** ** Refresh: [graphqlInit] and the router *)
Section Refresh.
Import Graphql.

Variable discovery : nat -> Result (list DBTResource).

(** [graphqlInit] never throws, whatever the discovery did. *)
Lemma graphqlInit_run eng w :
  graphqlInit discovery eng w = (after_init discovery w, inr tt).
Proof.
  unfold graphqlInit, after_init, layer_of, listMetrics, try_catch.
  rewrite bind_run.
  destruct (discovery (discoveries w)) as [err|ms]; reflexivity.
Qed.

Lemma layer_of_nil : layer_of [] = Reinit.
Proof. reflexivity. Qed.

Lemma published_app (a b : list Layer) :
  published (a ++ b)
  = match published a with
    | Some x => Some x
    | None => published b
    end.
Proof. induction a as [|[] a IH]; done. Qed.





End Refresh.

Section RefreshExample.
Import Graphql.



End RefreshExample.

(** ** Objects as entries *)
Section ObjFacts.

Lemma obj_get_set_eq {V} (k : string) (v : V) (o : list (string * V)) :
  Obj.get k (Obj.set k v o) = Some v.
Proof.
  induction o as [|[k' v'] o IH]; cbn.
  - by rewrite String.eqb_refl.
  - destruct (String.eqb k' k) eqn:E; cbn; by rewrite E.
Qed.

Lemma obj_get_set_ne {V} (k k' : string) (v : V) (o : list (string * V)) :
  k ≠ k' -> Obj.get k' (Obj.set k v o) = Obj.get k' o.
Proof.
  intros Hne. induction o as [|[k0 v0] o IH]; cbn.
  - by rewrite (proj2 (String.eqb_neq k k')).
  - destruct (String.eqb k0 k) eqn:E; cbn.
    + apply String.eqb_eq in E. subst k0.
      by rewrite (proj2 (String.eqb_neq k k')).
    + by rewrite IH.
Qed.

Lemma obj_spread_cons {V} (k : string) (v : V) (src base : list (string * V)) :
  Obj.spread base ((k, v) :: src) = Obj.spread (Obj.set k v base) src.
Proof. reflexivity. Qed.

Lemma obj_get_spread_notin {V} (k : string) (src base : list (string * V)) :
  k ∉ Obj.keys src -> Obj.get k (Obj.spread base src) = Obj.get k base.
Proof.
  revert base. induction src as [|[k0 v0] src IH]; intros base Hk; [done|].
  unfold Obj.keys in Hk. cbn in Hk. apply not_elem_of_cons in Hk as [Hne Hk].
  rewrite obj_spread_cons, IH by done. by apply obj_get_set_ne.
Qed.

(** Reading back a key of entries with distinct keys spread over
    anything gives the entry's value. *)
Lemma obj_get_spread_in {V} (k : string) (v : V) (src base : list (string * V)) :
  NoDup (Obj.keys src) -> (k, v) ∈ src -> Obj.get k (Obj.spread base src) = Some v.
Proof.
  revert base. induction src as [|[k0 v0] src IH]; intros base Hnd Hin.
  { by apply elem_of_nil in Hin. }
  unfold Obj.keys in Hnd. cbn in Hnd. apply NoDup_cons in Hnd as [Hk0 Hnd].
  rewrite obj_spread_cons.
  apply elem_of_cons in Hin as [[= -> ->]|Hin].
  - rewrite obj_get_spread_notin by done. apply obj_get_set_eq.
  - by apply IH.
Qed.

Lemma obj_keys_tagged {V} (g : string -> V) (ks : list string) :
  Obj.keys ((fun key => (key, g key)) <$> ks) = ks.
Proof. unfold Obj.keys. induction ks as [|k ks IH]; [done|]. cbn. by f_equal. Qed.

Lemma obj_keys_renamed {V} (f : string -> string) (o : list (string * V)) :
  Obj.keys ((fun kv => (f (fst kv), snd kv)) <$> o) = f <$> Obj.keys o.
Proof. unfold Obj.keys. induction o as [|[k v] o IH]; [done|]. cbn. by f_equal. Qed.

End ObjFacts.

(** ** The constructor of the service *)
Section ConstructorFacts.
Import DbtLocalMetricService.

Variable toUpperCase : string -> string.
Variable tmpdir : string.

(** X5: the constructor throws, writing and logging nothing, exactly
    when the project path is missing or empty, and then with the message
    that no dbt project path was given; otherwise it returns. *)
Theorem constructor_requires_project_path (props : Props) :
  (props_dbtProjectPath props = None ∨ props_dbtProjectPath props = Some ""
   -> constructor toUpperCase tmpdir props
      = inl (Error_ (Some "no dbt project path given")))
  ∧ (∀ e, constructor toUpperCase tmpdir props = inl e
          -> props_dbtProjectPath props = None ∨ props_dbtProjectPath props = Some "")
  ∧ (∀ c path, props_dbtProjectPath props = Some (String c path)
               -> ∃ made, constructor toUpperCase tmpdir props = inr made
                          ∧ dbtProjectPath (instance made) = String c path).
Proof.
  unfold constructor. split; [|split].
  - by intros [->| ->].
  - intros e. destruct (props_dbtProjectPath props) as [[|c path]|]; [by right| |by left].
    cbn. by destruct (props_profileVariables props).
  - intros c path ->. cbn. destruct (props_profileVariables props); by eexists.
Qed.


(** X7: the document written to profiles.yml does not depend on the
    values of the credentials: two sets of credentials with the same
    keys, for the same warehouse and alike in asking for a key file, give
    the same document. *)
Theorem profile_hides_secret_values (w : Warehouse) (s1 s2 : list (string * string)) :
  Obj.keys s1 = Obj.keys s2 ->
  keyfile_json {| warehouse := w; secrets := s1 |}
  = keyfile_json {| warehouse := w; secrets := s2 |} ->
  profileToWrite toUpperCase {| warehouse := w; secrets := s1 |}
  = profileToWrite toUpperCase {| warehouse := w; secrets := s2 |}.
Proof.
  intros Hkeys Hkf. unfold profileToWrite, credentialsToWrite. cbn [warehouse secrets].
  by rewrite Hkeys, Hkf.
Qed.

(** X8: when the credentials' variable names are distinct, every
    credential is handed to the engine under the variable that its
    placeholder in profiles.yml names. *)
Theorem placeholders_resolve (credentials : list (string * string)) (k v : string) :
  NoDup (envVar toUpperCase <$> Obj.keys credentials) ->
  (k, v) ∈ credentials ->
  Obj.get k (credentialsToWrite toUpperCase credentials)
  = Some (YString ("{{ env_var('" +:+ envVar toUpperCase k +:+ "') }}"))
  ∧ Obj.get (envVar toUpperCase k) (credential_env toUpperCase credentials) = Some v.
Proof.
  intros Hnd Hin.
  assert (Hkeys : NoDup (Obj.keys credentials)) by by apply NoDup_fmap_1 in Hnd.
  split.
  - unfold credentialsToWrite, Obj.fromEntries.
    apply obj_get_spread_in.
    + by rewrite obj_keys_tagged.
    + apply list_elem_of_fmap. exists k. split; [done|].
      apply list_elem_of_fmap. by exists (k, v).
  - unfold credential_env, Obj.fromEntries.
    apply obj_get_spread_in.
    + by rewrite obj_keys_renamed.
    + apply list_elem_of_fmap. by exists (k, v).
Qed.

(** X9: two credentials whose keys give one variable name (keys that
    differ in case only) share the variable, and the engine gets the
    value of the later one alone. *)
Theorem colliding_keys_lose_a_credential (k1 k2 v1 v2 : string) :
  k1 ≠ k2 ->
  toUpperCase k1 = toUpperCase k2 ->
  credential_env toUpperCase [(k1, v1); (k2, v2)] = [(envVar toUpperCase k1, v2)].
Proof.
  intros _ Hsame. unfold credential_env, Obj.fromEntries, Obj.spread, envVar.
  cbn. rewrite Hsame. by rewrite String.eqb_refl.
Qed.

End ConstructorFacts.

Section ConstructorExamples.
Import DbtLocalMetricService.

Lemma profile_hides_secret_values_witness :
  let s1 := [("account", "acme"); ("password", "hunter2")] in
  let s2 := [("account", "initech"); ("password", "correct horse")] in
  Obj.keys s1 = Obj.keys s2
  ∧ keyfile_json {| warehouse := SNOWFLAKE; secrets := s1 |}
    = keyfile_json {| warehouse := SNOWFLAKE; secrets := s2 |}
  ∧ profileToWrite upper {| warehouse := SNOWFLAKE; secrets := s1 |}
    = profileToWrite upper {| warehouse := SNOWFLAKE; secrets := s2 |}
  ∧ profileToWrite upper {| warehouse := SNOWFLAKE; secrets := s1 |}
    = YMap [("mapi_profile",
             YMap [("target", YString "prod");
                   ("outputs",
                    YMap [("prod",
                           YMap [("type", YString "snowflake");
                                 ("account",
                                  YString "{{ env_var('MAPI_DBT_PROFILE_ACCOUNT') }}");
                                 ("password",
                                  YString "{{ env_var('MAPI_DBT_PROFILE_PASSWORD') }}")])])])].
Proof.
  cbv zeta. split; [reflexivity|]. split; [reflexivity|].
  split; [|reflexivity].
  exact (profile_hides_secret_values upper SNOWFLAKE
           [("account", "acme"); ("password", "hunter2")]
           [("account", "initech"); ("password", "correct horse")] eq_refl eq_refl).
Defined.

Lemma placeholders_resolve_witness :
  NoDup (envVar upper <$> Obj.keys (secrets example_profile))
  ∧ ("password", "hunter2") ∈ secrets example_profile
  ∧ Obj.get "password" (credentialsToWrite upper (secrets example_profile))
    = Some (YString "{{ env_var('MAPI_DBT_PROFILE_PASSWORD') }}")
  ∧ Obj.get "MAPI_DBT_PROFILE_PASSWORD" (credential_env upper (secrets example_profile))
    = Some "hunter2".
Proof.
  assert (Hnd : NoDup (envVar upper <$> Obj.keys (secrets example_profile))).
  { vm_compute. repeat constructor; intros H; repeat (apply elem_of_cons in H as [H|H]; [discriminate H|]); by apply elem_of_nil in H. }
  assert (Hin : ("password", "hunter2") ∈ secrets example_profile).
  { right. left. }
  split; [exact Hnd|]. split; [exact Hin|].
  exact (placeholders_resolve upper (secrets example_profile) "password" "hunter2" Hnd Hin).
Defined.

Lemma colliding_keys_lose_a_credential_witness :
  "user" ≠ "USER"
  ∧ upper "user" = upper "USER"
  ∧ credential_env upper [("user", "alice"); ("USER", "bob")]
    = [("MAPI_DBT_PROFILE_USER", "bob")].
Proof.
  assert (Hne : "user" ≠ "USER") by discriminate.
  split; [exact Hne|]. split; [reflexivity|].
  exact (colliding_keys_lose_a_credential upper "user" "USER" "alice" "bob" Hne eq_refl).
Defined.

End ConstructorExamples.

(** ** [installMetricsPackage] *)
Section InstallFacts.
Import DbtLocalMetricService.

Lemma run_deps_run (this : t) eng w :
  run_deps this eng w
  = match eng (ExecFileSync "dbt" ["deps"] (deps_options this)) with
    | Exit0 _ =>
        (record_launch (ExecFileSync "dbt" ["deps"] (deps_options this)) w, inr tt)
    | ExitFail st out =>
        ((console_log error [LError (ChildProcessError st out)] eng
            (record_launch (ExecFileSync "dbt" ["deps"] (deps_options this)) w)).1,
         inl (ChildProcessError st out))
    end.
Proof.
  unfold run_deps, try_catch. rewrite bind_run. unfold execFileSync, launch.
  by destruct (eng _).
Qed.

(** X10: when packages.yml is empty or has no packages list,
    [installMetricsPackage] throws a [TypeError] before it writes the
    file or launches dbt. *)
Theorem installMetricsPackage_without_list (this : t) (eng : Engine) (w : World) :
  let empty := installMetricsPackage this NoDocument eng w in
  let no_list := installMetricsPackage this (Document None) eng w in
  empty.2 = inl TypeError ∧ empty.1.2 = None ∧ launches empty.1.1 = launches w
  ∧ no_list.2 = inl TypeError ∧ no_list.1.2 = None ∧ launches no_list.1.1 = launches w.
Proof. cbv zeta. by repeat split. Qed.

(** X11: with a packages list, [installMetricsPackage] writes the file
    only when no entry has the git address of the metrics package, and
    then the old list with the package added at its end; the list the
    file holds afterwards has the package, so a second run on it writes
    nothing. *)
Theorem installMetricsPackage_idempotent (this : t) (l : list Package)
        (eng eng' : Engine) (w w' : World) :
  let first := installMetricsPackage this (Document (Some l)) eng w in
  let after := match first.1.2 with Some (_, written) => written | None => l end in
  first.1.2 = (if existsb is_metrics_package l then None
               else Some (dbtProjectPath this +:+ "/packages.yml",
                          l ++ [METRICS_API_PACKAGE]))
  ∧ existsb is_metrics_package after = true
  ∧ (installMetricsPackage this (Document (Some after)) eng' w').1.2 = None.
Proof.
  cbv zeta.
  assert (Hfirst : (installMetricsPackage this (Document (Some l)) eng w).1.2
                   = (if existsb is_metrics_package l then None
                      else Some (dbtProjectPath this +:+ "/packages.yml",
                                 l ++ [METRICS_API_PACKAGE]))).
  { unfold installMetricsPackage. cbn [has_metrics_package console_log modify].
    destruct (existsb is_metrics_package l); by destruct (run_deps this eng _). }
  split; [exact Hfirst|]. rewrite Hfirst.
  assert (Hafter : existsb is_metrics_package
                     (match (if existsb is_metrics_package l then None
                             else Some (dbtProjectPath this +:+ "/packages.yml",
                                        l ++ [METRICS_API_PACKAGE]))
                      with Some (_, written) => written | None => l end) = true).
  { destruct (existsb is_metrics_package l) eqn:E; [exact E|].
    rewrite existsb_app. cbn. apply orb_true_r. }
  split; [exact Hafter|].
  unfold installMetricsPackage. cbn [has_metrics_package console_log modify].
  rewrite Hafter. by destruct (run_deps this eng' _).
Qed.

(** X12: with a packages list, [installMetricsPackage] launches dbt deps
    once, in the project directory and without the credentials in the
    environment; a non-zero exit is written to the console and thrown on,
    after the file has been written. *)
Theorem installMetricsPackage_runs_deps (this : t) (l : list Package)
        (eng : Engine) (w : World) :
  let run := installMetricsPackage this (Document (Some l)) eng w in
  let deps := ExecFileSync "dbt" ["deps"]
                {| cwd := dbtProjectPath this; env_overrides := None |} in
  launches run.1.1 = launches w ++ [deps]
  ∧ run.2 = match eng deps with
            | Exit0 _ => inr tt
            | ExitFail status out => inl (ChildProcessError status out)
            end
  ∧ (∀ status out, eng deps = ExitFail status out ->
       last (console run.1.1) = Some (error, [LError (ChildProcessError status out)])
       ∧ run.1.2 = (if existsb is_metrics_package l then None
                    else Some (dbtProjectPath this +:+ "/packages.yml",
                               l ++ [METRICS_API_PACKAGE]))).
Proof.
  cbv zeta. unfold installMetricsPackage. cbn [has_metrics_package console_log modify].
  destruct (existsb is_metrics_package l); rewrite run_deps_run;
    unfold deps_options; destruct (eng _) as [out|st out] eqn:E; cbn;
    (split; [done|]); (split; [done|]); intros status out' [= <- <-] || intros ? ? [=];
    split; try done; by rewrite last_snoc.
Qed.

End InstallFacts.

(** ** Selectors *)
Section SelectorFacts.
Import DbtLocalMetricService.

Lemma filter_by_run (key wanted : string) (metrics : list json) :
  filter_by key wanted metrics
  = if existsb is_null metrics then inl TypeError
    else inr (List.filter (prop_matches key wanted) metrics).
Proof.
  induction metrics as [|m metrics IH]; [done|].
  cbn [filter_by existsb List.filter]. rewrite IH.
  destruct m; cbn; by destruct (existsb is_null metrics).
Qed.

(** X13: filtering a list of metrics by a property throws a [TypeError]
    when the list holds a null, and otherwise keeps, in order, exactly
    the objects whose property is the wanted string. *)
Theorem filter_by_spec (key wanted : string) (metrics : list json) :
  (existsb is_null metrics = true -> filter_by key wanted metrics = inl TypeError)
  ∧ (existsb is_null metrics = false ->
     filter_by key wanted metrics
     = inr (List.filter (prop_matches key wanted) metrics))
  ∧ (∀ kept, filter_by key wanted metrics = inr kept ->
       ∀ m, m ∈ kept ↔ m ∈ metrics ∧ prop_matches key wanted m = true).
Proof.
  rewrite filter_by_run. destruct (existsb is_null metrics).
  - by repeat split.
  - split; [done|]. split; [done|]. intros kept [= <-] m.
    rewrite !list_elem_of_In, filter_In. done.
Qed.

Lemma filter_true {A} (l : list A) : List.filter (fun _ => true) l = l.
Proof. induction l as [|x l IH]; [done|]. cbn. by rewrite IH. Qed.

Lemma filter_step_array (key : string) (sel : option string) (xs : list json) eng w :
  existsb is_null xs = false ->
  filter_step key sel (JArray xs) eng w
  = (w, inr (JArray (List.filter (selector_ok key sel) xs))).
Proof.
  intros Hnull. unfold filter_step, selector_ok.
  destruct sel as [wanted|]; [destruct (Js.truthy wanted)|].
  - by rewrite filter_by_run, Hnull.
  - by rewrite filter_true.
  - by rewrite filter_true.
Qed.

Lemma existsb_filter_false {A} (p q : A -> bool) (l : list A) :
  existsb p l = false -> existsb p (List.filter q l) = false.
Proof.
  induction l as [|x l IH]; [done|]. cbn.
  intros [Hx Hl]%orb_false_iff. destruct (q x); cbn; [rewrite Hx|]; by apply IH.
Qed.

Lemma filter_filter {A} (p q : A -> bool) (l : list A) :
  List.filter q (List.filter p l) = List.filter (fun x => p x && q x) l.
Proof.
  induction l as [|x l IH]; [done|]. cbn.
  destruct (p x); cbn; [destruct (q x)|]; by rewrite IH.
Qed.

(** X14: when the discovery output parses to a list without nulls,
    [listMetrics] returns, in their order, exactly the metrics that agree
    with every selector given (type, model, package_name); an absent or
    empty selector filters nothing. *)
Theorem listMetrics_selected (this : t) (name : option string) (selectors : Selectors)
        (eng : Engine) (w : World) (out : string) (xs : list json) :
  eng (listMetrics_launch this name) = Exit0 out ->
  Json.parse (wrap_spans out) = Some (JArray xs) ->
  existsb is_null xs = false ->
  (listMetrics this name selectors eng w).2
  = inr (JArray (List.filter
                   (fun metric =>
                      selector_ok "type" (type selectors) metric
                      && (selector_ok "model" (model selectors) metric
                          && selector_ok "package_name" (package_name selectors) metric))
                   xs)).
Proof.
  intros Hout Hparse Hnull. unfold listMetrics.
  rewrite bind_run. unfold console_log at 1, modify at 1. cbv beta iota.
  rewrite bind_run. unfold execFileSync, launch. fold (listMetrics_launch this name).
  rewrite Hout. cbv beta iota.
  rewrite bind_run. unfold JSON_parse, of_option. rewrite Hparse.
  change (ret (JArray xs) eng ?w0) with (w0, @inr JsError _ (JArray xs)). cbv beta iota.
  rewrite bind_run, filter_step_array by done. cbv beta iota.
  rewrite bind_run, filter_step_array by by apply existsb_filter_false. cbv beta iota.
  rewrite bind_run, filter_step_array by by do 2 apply existsb_filter_false.
  by rewrite !filter_filter.
Qed.

End SelectorFacts.

Section SelectorExample.
Import DbtLocalMetricService.

Lemma listMetrics_selected_witness :
  let a := JObject [("name", JString "a"); ("type", JString "ratio")] in
  let b := JObject [("name", JString "b"); ("type", JString "simple")] in
  let ratios := {| type := Some "ratio"; model := None; package_name := Some "" |} in
  Json.parse (wrap_spans typed_output) = Some (JArray [a; b])
  ∧ existsb is_null [a; b] = false
  ∧ (listMetrics example_this None ratios (fun _ => Exit0 typed_output) initial_world).2
    = inr (JArray [a]).
Proof.
  cbv zeta.
  assert (Hparse : Json.parse (wrap_spans typed_output)
                   = Some (JArray [JObject [("name", JString "a"); ("type", JString "ratio")];
                                   JObject [("name", JString "b"); ("type", JString "simple")]]))
    by by vm_compute.
  split; [exact Hparse|]. split; [reflexivity|].
  exact (listMetrics_selected example_this None
           {| type := Some "ratio"; model := None; package_name := Some "" |}
           (fun _ => Exit0 typed_output) initial_world typed_output _
           eq_refl Hparse eq_refl).
Defined.

End SelectorExample.

(** ** The handlers of index.ts *)
Section IndexHandlers.
Import Index.




(** *** The first line of the engine's output *)






End IndexHandlers.

(** ** The schema and the router of routes/graphql.ts *)
Section SchemaFacts.
Import Graphql.

Lemma foldl_insert_dom {V A} (key : A -> string) (val : A -> V) (items : list A)
      (acc : gmap string V) :
  dom (foldl (fun o item => <[key item := val item]> o) acc items)
  = dom acc ∪ list_to_set (key <$> items).
Proof.
  revert acc. induction items as [|x items IH]; intros acc; cbn [foldl].
  - set_solver.
  - rewrite IH, dom_insert_L. set_solver.
Qed.

Lemma foldl_insert_lookup {V A} (key : A -> string) (val : A -> V) (items : list A)
      (acc : gmap string V) (k : string) (v : V) :
  foldl (fun o item => <[key item := val item]> o) acc items !! k = Some v ->
  acc !! k = Some v ∨ ∃ item, item ∈ items ∧ key item = k ∧ val item = v.
Proof.
  revert acc. induction items as [|x items IH]; intros acc; cbn [foldl]; [by left|].
  intros [Hacc|(item & Hin & Hk & Hv)]%IH.
  - destruct (decide (key x = k)) as [<-|Hne].
    + rewrite lookup_insert_eq in Hacc. injection Hacc as <-.
      right. exists x. split; [by left|done].
    + rewrite lookup_insert_ne in Hacc by done. by left.
  - right. exists item. split; [by right|done].
Qed.

Lemma query_type_fold (availableMetrics : list DBTResource) :
  query_type availableMetrics
  = foldl (fun o metric =>
             <[name metric := {| qf_row := metricToGraphQLType metric;
                                 qf_args := metric_args |}]> o)
          ∅ availableMetrics.
Proof.
  unfold query_type, Object_fromEntries.
  generalize (∅ : gmap string QueryField).
  induction availableMetrics as [|m ms IH]; intros acc; [done|]. cbn. apply IH.
Qed.

Lemma query_type_dom (availableMetrics : list DBTResource) :
  dom (query_type availableMetrics) = list_to_set (name <$> availableMetrics).
Proof. rewrite query_type_fold, foldl_insert_dom. set_solver. Qed.

Lemma root_of_dom (availableMetrics : list DBTResource) :
  dom (root_of availableMetrics) = list_to_set (name <$> availableMetrics).
Proof.
  unfold root_of.
  rewrite (foldl_insert_dom name (fun _ => metricResolver_fn)). set_solver.
Qed.

Lemma root_of_size (availableMetrics : list DBTResource) :
  (0 < size (root_of availableMetrics))%nat ↔ availableMetrics ≠ [].
Proof.
  rewrite <- size_dom, root_of_dom. split.
  - intros Hsize ->. cbn in Hsize. rewrite size_empty in Hsize. lia.
  - destruct availableMetrics as [|m ms]; [done|]. intros _. cbn.
    set (names := _ ∪ _). enough (size names ≠ 0%nat) by lia.
    apply size_non_empty_iff. subst names. set_solver.
Qed.

(** X17: the schema and the resolver bindings that [graphqlInit] builds
    cover the same names, those of the metrics discovered; every field
    of the schema takes the arguments grain (a required string),
    start_date and end_date and has the row type of a discovered metric
    of that name; and there are bindings exactly when a metric was
    discovered. *)
Theorem schema_and_bindings_agree (availableMetrics : list DBTResource) :
  dom (query_type availableMetrics) = list_to_set (name <$> availableMetrics)
  ∧ dom (root_of availableMetrics) = dom (query_type availableMetrics)
  ∧ (∀ n field, query_type availableMetrics !! n = Some field ->
       qf_args field = metric_args
       ∧ ∃ metric, metric ∈ availableMetrics ∧ name metric = n
                   ∧ qf_row field = metricToGraphQLType metric)
  ∧ metric_args !! "grain" = Some (GraphQLNonNull GraphQLString)
  ∧ dom metric_args = list_to_set ["grain"; "start_date"; "end_date"]
  ∧ ((0 < size (root_of availableMetrics))%nat ↔ availableMetrics ≠ []).
Proof.
  split; [apply query_type_dom|].
  split; [by rewrite query_type_dom, root_of_dom|]. split; [|split; [|split]].
  - intros n field. rewrite query_type_fold.
    intros [Hempty|(metric & Hin & Hn & Hf)]%foldl_insert_lookup.
    + by rewrite lookup_empty in Hempty.
    + subst field. split; [done|]. by exists metric.
  - reflexivity.
  - unfold metric_args. rewrite !dom_insert_L. set_solver.
  - apply root_of_size.
Qed.


Variable discovery : nat -> Result (list DBTResource).



(** While no metric has been discovered, each retry layer that a request
    runs adds another retry layer behind it, so the pass down the stack
    goes on; every layer passed is one of the stack at the start or ran
    a discovery. *)
Lemma dispatch_retries (eng : Engine) (fuel : nat) :
  (∀ n, match discovery n with inl _ => True | inr ms => ms = [] end) ->
  ∀ (w : World) (idx : nat) (pre : list Layer),
    router w = pre ++ [Reinit] ->
    published (router w) = None ->
    (idx <= List.length pre)%nat ->
    (dispatch discovery fuel idx eng w).2 = inr None
    ∧ (fuel + idx + discoveries w
       <= discoveries (dispatch discovery fuel idx eng w).1 + List.length pre)%nat.
Proof.
  intros Hnone. induction fuel as [|fuel IH]; intros w idx pre Hrouter Hpub Hidx.
  { split; [done|]. cbn. lia. }
  cbn [dispatch].
  destruct (router w !! idx) as [layer|] eqn:Hlayer.
  - destruct layer as [|schema root|].
    + assert (Hlt : (S idx <= List.length pre)%nat).
      { destruct (decide (idx = List.length pre)) as [->|]; [|lia].
        rewrite Hrouter, lookup_app_r, Nat.sub_diag in Hlayer by lia. done. }
      destruct (IH w (S idx) pre Hrouter Hpub Hlt) as [Hres Hcount].
      split; [done|lia].
    + exfalso. apply list_elem_of_lookup_2 in Hlayer.
      clear -Hlayer Hpub. induction (router w) as [|l ls IHl]; [by apply elem_of_nil in Hlayer|].
      apply elem_of_cons in Hlayer as [<-|Hin]; [done|].
      destruct l; try done; by apply IHl.
    + rewrite bind_run, graphqlInit_run.
      assert (Hlayer' : layer_of match discovery (discoveries w) with
                                 | inl _ => []
                                 | inr ms => ms
                                 end = Reinit).
      { specialize (Hnone (discoveries w)).
        destruct (discovery (discoveries w)) as [e|ms]; [done|by subst ms]. }
      destruct (IH (after_init discovery w) (S idx) (pre ++ [Reinit])) as [Hres Hcount].
      * unfold after_init. cbn [router]. by rewrite Hlayer', Hrouter.
      * unfold after_init. cbn [router]. rewrite Hlayer', published_app, Hpub. done.
      * rewrite length_app. cbn. lia.
      * split; [done|]. rewrite length_app in Hcount.
        cbn [after_init discoveries List.length] in Hcount. lia.
  - apply lookup_ge_None in Hlayer. rewrite Hrouter, length_app in Hlayer.
    cbn in Hlayer. lia.
Qed.

(** X20: once a discovery has failed or found nothing and none
    succeeds after it, the pass of a request to the typed query surface
    down the router's stack does not end: however many layers it has
    been passed through, none has answered it and the end of the stack
    is not reached, because each retry layer runs [graphqlInit], which
    adds another retry layer behind it; and every layer passed, but for
    those the router had at the start, ran one more discovery. *)
Theorem query_pass_never_ends (eng : Engine) (fuel : nat) (w : World) :
  (∀ n, match discovery n with inl _ => True | inr ms => ms = [] end) ->
  published (router w) = None ->
  let request := dispatch discovery fuel 0 eng (graphqlInit discovery eng w).1 in
  request.2 = inr None
  ∧ (fuel + discoveries w < discoveries request.1 + List.length (router w))%nat.
Proof.
  intros Hnone Hpub. cbv zeta. rewrite graphqlInit_run. cbn [fst].
  assert (Hlayer : layer_of match discovery (discoveries w) with
                            | inl _ => []
                            | inr ms => ms
                            end = Reinit).
  { specialize (Hnone (discoveries w)).
    destruct (discovery (discoveries w)) as [e|ms]; [done|by subst ms]. }
  destruct (dispatch_retries eng fuel Hnone (after_init discovery w) 0 (router w))
    as [Hres Hcount].
  - unfold after_init. cbn [router]. by rewrite Hlayer.
  - unfold after_init. cbn [router]. by rewrite Hlayer, published_app, Hpub.
  - lia.
  - split; [done|]. cbn [after_init discoveries] in Hcount. lia.
Qed.

End SchemaFacts.

Section SchemaExamples.
Import Graphql.

Lemma query_pass_never_ends_witness :
  let failing : nat -> Result (list DBTResource) :=
    fun _ => inl (ChildProcessError 2 "Runtime Error") in
  (∀ n, match failing n with inl _ => True | inr ms => ms = [] end)
  ∧ published (router initial_world) = None
  ∧ (let request := dispatch failing 1000 0 idle_engine
                      (graphqlInit failing idle_engine initial_world).1 in
     request.2 = inr None
     ∧ (1000 + discoveries initial_world
        < discoveries request.1 + List.length (router initial_world))%nat).
Proof.
  cbv zeta. split; [done|]. split; [reflexivity|].
  exact (query_pass_never_ends (fun _ => inl (ChildProcessError 2 "Runtime Error"))
           idle_engine 1000 initial_world (fun _ => I) eq_refl).
Defined.

End SchemaExamples.

(** ** The object-span expression and line feeds *)
Section Spans.

Lemma take_line_id (s : string) :
  none_of Js.is_line_terminator s = true -> Js.take_line s = s.
Proof.
  induction s as [|c s IH]; [done|]. cbn.
  intros [Hc Hs]%andb_true_iff. apply negb_true_iff in Hc. by rewrite Hc, IH.
Qed.

Lemma upto_last_close_length (run p : string) :
  Js.upto_last_close run = Some p -> (String.length p <= String.length run)%nat.
Proof.
  revert p. induction run as [|c run IH]; intros p; [done|]. cbn.
  destruct (Js.upto_last_close run) as [p'|].
  - intros [= <-]. specialize (IH p' eq_refl). cbn. lia.
  - destruct (Ascii.eqb c "}"); [|done]. intros [= <-]. cbn. lia.
Qed.

Lemma scan_line_split (line rest : string) :
  ∀ skip, none_of Js.is_line_terminator line = true ->
    (skip <= String.length line)%nat ->
    Js.scan skip (line +:+ String Js.lf rest) = Js.scan skip line ++ Js.scan O rest.
Proof.
  induction line as [|c line IH]; intros skip Hline Hskip.
  - destruct skip; [|cbn in Hskip; lia]. by rewrite sapp_nil_l.
  - cbn [none_of] in Hline. apply andb_true_iff in Hline as [Hc Hline].
    rewrite sapp_cons. destruct skip as [|skip].
    + cbn [Js.scan Js.match_here].
      rewrite (take_line_app line), (take_line_id line) by done.
      replace (Js.take_line (String Js.lf rest)) with "" by reflexivity.
      rewrite sapp_nil_r.
      destruct (Ascii.eqb c "{"); [|by apply IH; [|lia]].
      destruct (Js.upto_last_close line) as [p|] eqn:E; cbn [fmap option_fmap option_map].
      * apply upto_last_close_length in E. cbn [String.length Nat.pred].
        rewrite IH by done. done.
      * apply IH; [done|lia].
    + cbn [Js.scan]. apply IH; [done|cbn in Hskip; lia].
Qed.

(** X21: no span of the discovery output crosses a line feed: the spans
    of a text are the spans of its first line followed by the spans of
    the rest, so an object printed over several lines is never taken as
    one span. *)
Theorem spans_stay_in_lines (line rest : string) :
  none_of Js.is_line_terminator line = true ->
  Js.scan O (line +:+ Js.LF +:+ rest) = Js.scan O line ++ Js.scan O rest.
Proof.
  intros Hline. unfold Js.LF. rewrite sapp_cons, sapp_nil_l.
  apply scan_line_split; [done|lia].
Qed.

Lemma spans_stay_in_lines_witness :
  none_of Js.is_line_terminator ("{" +:+ Js.q "name" +:+ ":") = true
  ∧ Js.scan O (("{" +:+ Js.q "name" +:+ ":") +:+ Js.LF +:+ (Js.q "a" +:+ "}"))
    = Js.scan O ("{" +:+ Js.q "name" +:+ ":") ++ Js.scan O (Js.q "a" +:+ "}")
  ∧ Js.match_object_spans
      (("{" +:+ Js.q "name" +:+ ":") +:+ Js.LF +:+ (Js.q "a" +:+ "}")) = None.
Proof.
  split; [reflexivity|]. split; [|reflexivity].
  exact (spans_stay_in_lines ("{" +:+ Js.q "name" +:+ ":") (Js.q "a" +:+ "}") eq_refl).
Defined.

End Spans.
